(** * Bluetooth LE battery server: GATT attribute store, request handlers,
    connection state machine, OTA write handler and battery notifier.

    Shallow embedding of [ble_gatt.cpp], [ble_context.cpp]/[ble_context.hpp]
    and [battery_service_task.cpp].  Integers that the C++ code keeps in
    [uint16_t] fields (handles, lengths) are [nat]; their arithmetic in the
    modelled functions never wraps.  Bytes are [nat] in [0, 256).  A C pointer
    that may be [nullptr] is an [option]. *)

From Stdlib Require Import List Arith Lia NArith ZArith Bool.
Import ListNotations.

(** ** wiced_bt_gatt_status_t (values of wiced_bt_gatt.h) *)

Definition gatt_status := N.

Definition WICED_BT_GATT_SUCCESS : gatt_status := 0x00%N.
Definition WICED_BT_GATT_INVALID_HANDLE : gatt_status := 0x01%N.
Definition WICED_BT_GATT_INVALID_PDU : gatt_status := 0x04%N.
Definition WICED_BT_GATT_REQ_NOT_SUPPORTED : gatt_status := 0x06%N.
Definition WICED_BT_GATT_INVALID_OFFSET : gatt_status := 0x07%N.
Definition WICED_BT_GATT_INVALID_ATTR_LEN : gatt_status := 0x0d%N.
Definition WICED_BT_GATT_ERR_UNLIKELY : gatt_status := 0x0e%N.
Definition WICED_BT_GATT_INSUF_RESOURCE : gatt_status := 0x11%N.
Definition WICED_BT_GATT_ERROR : gatt_status := 0x85%N.

(** ** gatt_db_lookup_table_t

    One entry of [app_gatt_db_ext_attr_tbl]: [p_data] is the backing buffer
    ([None] for a [nullptr]). *)

Record gatt_db_lookup_table_t := mk_entry {
  handle : nat;
  max_len : nat;
  cur_len : nat;
  p_data : option (list nat)
}.

(** [ptr == nullptr]. *)
Definition is_nullptr {A : Type} (p : option A) : bool :=
  match p with None => true | Some _ => false end.

(** [std::memcpy(dst, src, n)]: the first [n] bytes of [dst] become the first
    [n] bytes of [src]. *)
Definition memcpy (dst src : list nat) (n : nat) : list nat :=
  firstn n src ++ skipn n dst.

(** [std::memset(dst + off, c, n)]. *)
Definition memset_at (dst : list nat) (off c n : nat) : list nat :=
  firstn off dst ++ repeat c n ++ skipn (off + n) dst.

(** The loop of [ble_gatt_db_set_value] over the table:
    the first entry whose handle matches decides the status ([break]). *)
Fixpoint set_value_loop (attr_handle : nat) (value : list nat) (length : nat)
    (tbl : list gatt_db_lookup_table_t)
    : gatt_status * list gatt_db_lookup_table_t :=
  match tbl with
  | [] => (WICED_BT_GATT_INVALID_HANDLE, [])
  | entry :: rest =>
      if negb (handle entry =? attr_handle) then
        let '(status, rest') := set_value_loop attr_handle value length rest in
        (status, entry :: rest')
      else if max_len entry <? length then
        (WICED_BT_GATT_INVALID_ATTR_LEN, tbl)
      else
        match p_data entry with
        | None => (WICED_BT_GATT_ERROR, tbl)
        | Some buf =>
            let buf1 := memcpy buf value length in
            let buf2 := if length <? max_len entry
                        then memset_at buf1 length 0 (max_len entry - length)
                        else buf1 in
            (WICED_BT_GATT_SUCCESS,
             {| handle := handle entry; max_len := max_len entry;
                cur_len := length; p_data := Some buf2 |} :: rest)
        end
  end.

(** The bytes [value] points to ([memcpy] from a [nullptr] copies nothing). *)
Definition value_bytes (value : option (list nat)) : list nat :=
  match value with Some v => v | None => [] end.

(** [ble_gatt_db_set_value(attr_handle, value, length)] on the table [tbl];
    returns the status and the table afterwards.  [value = None] is a
    [nullptr] source. *)
Definition ble_gatt_db_set_value (tbl : list gatt_db_lookup_table_t)
    (attr_handle : nat) (value : option (list nat)) (length : nat)
    : gatt_status * list gatt_db_lookup_table_t :=
  if (0 <? length) && is_nullptr value then
    (WICED_BT_GATT_INVALID_PDU, tbl)
  else
    set_value_loop attr_handle (value_bytes value) length tbl.

(** [ble_gatt_db_find_by_handle]: [std::find_if] over the table. *)
Definition ble_gatt_db_find_by_handle (tbl : list gatt_db_lookup_table_t)
    (h : nat) : option gatt_db_lookup_table_t :=
  find (fun entry => handle entry =? h) tbl.

(** Table invariant: every backing buffer has [max_len] bytes. *)
Definition entry_buffer_ok (e : gatt_db_lookup_table_t) : bool :=
  match p_data e with
  | Some buf => List.length buf =? max_len e
  | None => true
  end.

Definition table_ok (tbl : list gatt_db_lookup_table_t) : bool :=
  forallb entry_buffer_ok tbl.

(** A small table used by the examples. *)
Definition sample_table : list gatt_db_lookup_table_t :=
  [ mk_entry 3 4 2 (Some [7; 8; 0; 0]);
    mk_entry 5 1 1 (Some [42]);
    mk_entry 9 2 0 None ].


(** ** Effects

    Calls into the Bluetooth stack, the heap, the LED and the OTA library are
    recorded as events of a trace. *)

(** Release callback handed to the stack with a response buffer
    ([nullptr] or [std::free]). *)
Inductive release_cb := NoRelease | ReleaseFree.

(** [led_pwm::duty_cycle]. *)
Inductive duty_cycle := duty_off | duty_blinking | duty_on.

(** [ble_context::state]. *)
Inductive conn_state :=
  | disconnected_not_advertising
  | disconnected_and_advertising
  | connected.

Inductive event :=
  | EvMalloc (n : nat)
  | EvFree
  | EvSendReadHandleRsp (conn : nat) (opcode : N) (len : nat)
      (data : option (list nat))
  | EvSendReadByTypeRsp (conn : nat) (opcode : N) (pair_len used : nat)
      (data : list nat) (rel : release_cb)
  | EvSendReadMultipleRsp (conn : nat) (opcode : N) (used : nat)
      (data : list nat) (rel : release_cb)
  | EvSendErrorRsp (conn : nat) (opcode : N) (h : nat) (status : gatt_status)
  | EvSendWriteRsp (conn : nat) (opcode : N) (h : nat)
  | EvSendExecuteWriteRsp (conn : nat) (opcode : N)
  | EvSendMtuRsp (conn remote_mtu local_mtu : nat)
  | EvSendNotification (conn h : nat) (data : list nat)
  | EvStartAdvertisements
  | EvLedStop
  | EvLedSetBlinkRate (d : duty_cycle)
  | EvLedStart
  | EvOtaAgentStart
  | EvOtaDownloadPrepare
  | EvOtaDownload
  | EvOtaDownloadVerify
  | EvOtaDownloadAbort
  | EvOtaDownloadWrite
  | EvOtaGetState
  | EvOtaAgentStop
  | EvDelayMs (ms : nat)
  | EvSystemReset
  | EvDevConfirmReqReply (res : N) (bd_addr : list nat)
  | EvBleSecurityGrant (bd_addr : list nat) (res : N)
  | EvPairingIoCapabilitiesReply (local_io_cap oob_data auth_req : N)
      (max_key_size : nat) (init_keys resp_keys : N).

(** The fields of [ble_context] the handlers read or write ([m_ota_context]
    is the OTA library's context pointer, [0] for [nullptr]). *)
Record ble_context := mk_ctx {
  m_tag : N;
  m_connection_id : nat;
  m_peer_address : list nat;
  m_connection_state : conn_state;
  m_ota_context : nat;
  m_reboot_at_end : bool;
  m_ota_config_descriptor : nat
}.

Definition set_connection_id (c : ble_context) (id : nat) : ble_context :=
  {| m_tag := m_tag c; m_connection_id := id; m_peer_address := m_peer_address c;
     m_connection_state := m_connection_state c; m_ota_context := m_ota_context c;
     m_reboot_at_end := m_reboot_at_end c;
     m_ota_config_descriptor := m_ota_config_descriptor c |}.

Definition set_peer_address (c : ble_context) (a : list nat) : ble_context :=
  {| m_tag := m_tag c; m_connection_id := m_connection_id c; m_peer_address := a;
     m_connection_state := m_connection_state c; m_ota_context := m_ota_context c;
     m_reboot_at_end := m_reboot_at_end c;
     m_ota_config_descriptor := m_ota_config_descriptor c |}.

Definition set_connection_state (c : ble_context) (s : conn_state) : ble_context :=
  {| m_tag := m_tag c; m_connection_id := m_connection_id c;
     m_peer_address := m_peer_address c; m_connection_state := s;
     m_ota_context := m_ota_context c; m_reboot_at_end := m_reboot_at_end c;
     m_ota_config_descriptor := m_ota_config_descriptor c |}.

Definition set_ota_context (c : ble_context) (o : nat) : ble_context :=
  {| m_tag := m_tag c; m_connection_id := m_connection_id c;
     m_peer_address := m_peer_address c; m_connection_state := m_connection_state c;
     m_ota_context := o; m_reboot_at_end := m_reboot_at_end c;
     m_ota_config_descriptor := m_ota_config_descriptor c |}.

Definition set_ota_config_descriptor (c : ble_context) (d : nat) : ble_context :=
  {| m_tag := m_tag c; m_connection_id := m_connection_id c;
     m_peer_address := m_peer_address c; m_connection_state := m_connection_state c;
     m_ota_context := m_ota_context c; m_reboot_at_end := m_reboot_at_end c;
     m_ota_config_descriptor := d |}.

(** [ble_context::ota_value_initialize] (the agent and network parameter
    blocks it also fills are not modelled). *)
Definition ota_value_initialize (c : ble_context) : ble_context :=
  {| m_tag := m_tag c; m_connection_id := m_connection_id c;
     m_peer_address := m_peer_address c; m_connection_state := m_connection_state c;
     m_ota_context := 0; m_reboot_at_end := true; m_ota_config_descriptor := 0 |}.

(** The global state: the attribute table, [ble_context_object] and the
    trace of external calls so far. *)
Record world := mk_world {
  w_tbl : list gatt_db_lookup_table_t;
  w_ctx : ble_context;
  w_trace : list event
}.

(** How a run of a handler ends: it returns; it stops in [CY_ASSERT(false)]
    or [NVIC_SystemReset()]; it stays in a [while (true)] loop; it reaches
    behaviour the C++ leaves undefined (outside the model); or the iteration
    bound of the model is exhausted. *)
Inductive result (A : Type) :=
  | Ret (a : A) (w : world)
  | Halt (w : world)
  | Spin (w : world)
  | Stuck (w : world)
  | OutOfFuel.
Arguments Ret {A}. Arguments Halt {A}. Arguments Spin {A}.
Arguments Stuck {A}. Arguments OutOfFuel {A}.

Definition M (A : Type) := world -> result A.

Definition ret {A} (a : A) : M A := fun w => Ret a w.

Definition bind {A B} (m : M A) (k : A -> M B) : M B :=
  fun w => match m w with
           | Ret a w' => k a w'
           | Halt w' => Halt w'
           | Spin w' => Spin w'
           | Stuck w' => Stuck w'
           | OutOfFuel => OutOfFuel
           end.

Notation "x <- m ;; k" := (bind m (fun x => k))
  (at level 61, m at next level, right associativity).
Notation "m ;;; k" := (bind m (fun _ => k))
  (at level 61, right associativity).

Definition emit (e : event) : M unit :=
  fun w => Ret tt (mk_world (w_tbl w) (w_ctx w) (w_trace w ++ [e])).
Definition get_tbl : M (list gatt_db_lookup_table_t) := fun w => Ret (w_tbl w) w.
Definition put_tbl (t : list gatt_db_lookup_table_t) : M unit :=
  fun w => Ret tt (mk_world t (w_ctx w) (w_trace w)).
Definition get_ctx : M ble_context := fun w => Ret (w_ctx w) w.
Definition put_ctx (c : ble_context) : M unit :=
  fun w => Ret tt (mk_world (w_tbl w) c (w_trace w)).
Definition halt {A} : M A := fun w => Halt w.
Definition spin {A} : M A := fun w => Spin w.
Definition stuck {A} : M A := fun w => Stuck w.
Definition out_of_fuel {A} : M A := fun _ => OutOfFuel.

(** [CY_ASSERT(cond)]: a false condition stops the program. *)
Definition cy_assert (cond : bool) : M unit :=
  if cond then ret tt else halt.

(** ** wiced_bt_gatt_opcode_t (values of wiced_bt_gatt.h) *)

Definition GATT_REQ_MTU : N := 0x02%N.
Definition GATT_REQ_FIND_INFO : N := 0x04%N.
Definition GATT_REQ_READ_BY_TYPE : N := 0x08%N.
Definition GATT_REQ_READ : N := 0x0A%N.
Definition GATT_REQ_READ_BLOB : N := 0x0C%N.
Definition GATT_REQ_READ_MULTI : N := 0x0E%N.
Definition GATT_REQ_WRITE : N := 0x12%N.
Definition GATT_REQ_PREPARE_WRITE : N := 0x16%N.
Definition GATT_REQ_EXECUTE_WRITE : N := 0x18%N.
Definition GATT_HANDLE_VALUE_NOTIF : N := 0x1B%N.
Definition GATT_HANDLE_VALUE_CONF : N := 0x1E%N.
Definition GATT_REQ_READ_MULTI_VAR_LENGTH : N := 0x20%N.
Definition GATT_CMD_WRITE : N := 0x52%N.
Definition GATT_CMD_SIGNED_WRITE : N := 0xD2%N.

(** [wiced_bt_gatt_status_t{}]: the value-initialised status, [0]. *)
Definition gatt_status_value_initialized : gatt_status := 0%N.

(** The union [attribute_request.data], by the member a handler reads. *)
Inductive request_data :=
  | ReadReq (h offset : nat)
  | ReadByTypeReq (s_handle e_handle uuid : nat)
  | ReadMultipleReq (handle_stream : list nat)
  | WriteReq (h : nat) (p_val : option (list nat)) (val_len : nat)
  | RemoteMtu (mtu : nat)
  | NoRequestData.

(** [wiced_bt_gatt_attribute_request_t]. *)
Record attribute_request := mk_request {
  conn_id : nat;
  opcode : N;
  len_requested : nat;
  data : request_data
}.

(** Exit of the read-by-type loop: [break] with the accumulated response, or
    the [return] after a failed table lookup. *)
Inductive read_by_type_exit :=
  | RbtBreak (pair_length : nat) (response : list nat) (error_handle : nat)
  | RbtLookupFailed (error_handle : nat).

(** Exit of the read-multiple loop. *)
Inductive read_multi_exit :=
  | RmDone (response : list nat) (error_handle : nat)
  | RmLookupFailed (error_handle : nat).

(** [wiced_bt_gatt_get_handle_from_stream(stream, i)] on a stream of
    [num_handles] handles (index [0] of an empty stream reads [0]). *)
Definition wiced_bt_gatt_get_handle_from_stream (stream : list nat) (i : nat) : nat :=
  nth i stream 0.

(** Conversion of an [int] to [uint16_t]. *)
Definition to_uint16 (n : nat) : nat := n mod 2 ^ 16.
Arguments to_uint16 : simpl never.

(** The read-by-type loop is bounded by the number of 16-bit handles,
    [2 ^ 16] iterations. *)
Definition read_by_type_fuel : nat := S (Nat.pred (2 ^ 16)).
Arguments read_by_type_fuel : simpl never.

Section Handlers.

(** The Bluetooth stack, the heap and the OTA library, as the handlers see
    them: the values their calls return. *)
Variable malloc_succeeds : nat -> bool.
Variable wiced_bt_gatt_server_send_read_handle_rsp :
  nat -> N -> nat -> option (list nat) -> gatt_status.
(** [wiced_bt_gatt_find_handle_by_type(s, e, uuid)]: next matching handle in
    [s, e], [0] if none. *)
Variable wiced_bt_gatt_find_handle_by_type : nat -> nat -> nat -> nat.
(** [wiced_bt_gatt_put_read_by_type_rsp_in_stream(p, room, &pair_len, handle,
    len, data)]: the bytes written (their number is the return value) and the
    new [pair_len]. *)
Variable wiced_bt_gatt_put_read_by_type_rsp_in_stream :
  nat -> nat -> nat -> nat -> option (list nat) -> list nat * nat.
(** [wiced_bt_gatt_put_read_multi_rsp_in_stream(opcode, p, room, handle, len,
    data)]: the bytes written. *)
Variable wiced_bt_gatt_put_read_multi_rsp_in_stream :
  N -> nat -> nat -> nat -> option (list nat) -> list nat.
Variable wiced_bt_gatt_server_send_mtu_rsp : nat -> nat -> nat -> gatt_status.
Variable ble_max_rx_pdu_size : nat.

(** [ble_gatt_request_read_handler]; returns the status and [*error_handle]. *)
Definition ble_gatt_request_read_handler (connection_id : nat) (op : N)
    (rh offset length_requested : nat) : M (gatt_status * nat) :=
  let error_handle := rh in
  tbl <- get_tbl ;;
  match ble_gatt_db_find_by_handle tbl rh with
  | None => ret (WICED_BT_GATT_INVALID_HANDLE, error_handle)
  | Some attribute =>
      let attr_length_to_copy := cur_len attribute in
      if cur_len attribute <=? offset then
        ret (WICED_BT_GATT_INVALID_OFFSET, error_handle)
      else
        let length_to_send := Nat.min length_requested
                                (attr_length_to_copy - offset) in
        let attribute_data :=
          option_map (fun b => firstn length_to_send (skipn offset b))
            (p_data attribute) in
        emit (EvSendReadHandleRsp connection_id op length_to_send attribute_data) ;;;
        ret (wiced_bt_gatt_server_send_read_handle_rsp connection_id op
               length_to_send attribute_data, error_handle)
  end.

(** The [while (true)] loop of [ble_gatt_request_read_by_type_handler];
    [response] holds the [used] bytes filled so far. *)
Fixpoint read_by_type_loop (fuel : nat) (tbl : list gatt_db_lookup_table_t)
    (e_handle uuid length_requested : nat)
    (attr_handle pair_length : nat) (response : list nat)
    : option read_by_type_exit :=
  match fuel with
  | 0 => None
  | S fuel' =>
      let error_handle := attr_handle in
      let attr_handle := wiced_bt_gatt_find_handle_by_type attr_handle e_handle uuid in
      if attr_handle =? 0 then Some (RbtBreak pair_length response error_handle)
      else
        match ble_gatt_db_find_by_handle tbl attr_handle with
        | None => Some (RbtLookupFailed error_handle)
        | Some attribute =>
            let '(filled, pair_length) :=
              wiced_bt_gatt_put_read_by_type_rsp_in_stream
                (length_requested - List.length response) pair_length attr_handle
                (cur_len attribute) (p_data attribute) in
            if List.length filled =? 0 then
              Some (RbtBreak pair_length response error_handle)
            else
              read_by_type_loop fuel' tbl e_handle uuid length_requested
                (to_uint16 (attr_handle + 1)) pair_length (response ++ filled)
        end
  end.

(** [ble_gatt_request_read_by_type_handler]; [error_handle] is the caller's
    [*error_handle] on entry. *)
Definition ble_gatt_request_read_by_type_handler (connection_id : nat) (op : N)
    (s_handle e_handle uuid length_requested error_handle : nat)
    : M (gatt_status * nat) :=
  if negb (malloc_succeeds length_requested) then
    ret (WICED_BT_GATT_INSUF_RESOURCE, error_handle)
  else
    emit (EvMalloc length_requested) ;;;
    tbl <- get_tbl ;;
    match read_by_type_loop read_by_type_fuel tbl e_handle uuid length_requested
            s_handle 0 [] with
    | None => out_of_fuel
    | Some (RbtLookupFailed eh) =>
        emit EvFree ;;; ret (WICED_BT_GATT_INVALID_HANDLE, eh)
    | Some (RbtBreak pair_length response eh) =>
        if List.length response =? 0 then
          emit EvFree ;;; ret (WICED_BT_GATT_INVALID_HANDLE, eh)
        else
          emit (EvSendReadByTypeRsp connection_id op pair_length
                  (List.length response) response ReleaseFree) ;;;
          ret (WICED_BT_GATT_SUCCESS, eh)
    end.

(** The [for] loop of [ble_gatt_request_read_multi_handler] over the handles
    still to read. *)
Fixpoint read_multi_loop (tbl : list gatt_db_lookup_table_t) (op : N)
    (length_requested : nat) (handles : list nat) (response : list nat)
    (error_handle : nat) : read_multi_exit :=
  match handles with
  | [] => RmDone response error_handle
  | h :: hs =>
      let error_handle := h in
      match ble_gatt_db_find_by_handle tbl h with
      | None => RmLookupFailed error_handle
      | Some attribute =>
          let filled :=
            wiced_bt_gatt_put_read_multi_rsp_in_stream op
              (length_requested - List.length response) (handle attribute)
              (cur_len attribute) (p_data attribute) in
          if List.length filled =? 0 then RmDone response error_handle
          else read_multi_loop tbl op length_requested hs (response ++ filled)
                 error_handle
      end
  end.

(** [ble_gatt_request_read_multi_handler]. *)
Definition ble_gatt_request_read_multi_handler (connection_id : nat) (op : N)
    (handle_stream : list nat) (length_requested : nat)
    : M (gatt_status * nat) :=
  let allocated := malloc_succeeds length_requested in
  (if allocated then emit (EvMalloc length_requested) else ret tt) ;;;
  let error_handle := wiced_bt_gatt_get_handle_from_stream handle_stream 0 in
  if negb allocated then ret (WICED_BT_GATT_INVALID_HANDLE, error_handle)
  else
    tbl <- get_tbl ;;
    match read_multi_loop tbl op length_requested handle_stream [] error_handle with
    | RmLookupFailed eh =>
        emit EvFree ;;; ret (WICED_BT_GATT_ERR_UNLIKELY, eh)
    | RmDone response eh =>
        if List.length response =? 0 then ret (WICED_BT_GATT_INVALID_HANDLE, eh)
        else
          emit (EvSendReadMultipleRsp connection_id op (List.length response)
                  response ReleaseFree) ;;;
          ret (WICED_BT_GATT_SUCCESS, eh)
    end.

End Handlers.

(** ** Stack behaviour used by the concrete runs

    A model of [wiced_bt_gatt_put_read_multi_rsp_in_stream]: the value (with
    its 2-byte length for the variable-length opcode) is written when it fits
    in the remaining room, nothing otherwise. *)
Definition put_read_multi_rsp_model (op : N) (room h len : nat)
    (p : option (list nat)) : list nat :=
  let v := firstn len (value_bytes p) in
  let item := if (op =? GATT_REQ_READ_MULTI_VAR_LENGTH)%N
              then [len mod 256; len / 256] ++ v else v in
  if List.length item <=? room then item else [].

(** ** Specification predicates *)

(** Every way a run of the read-by-type handler from [w] can end: nothing
    allocated; the buffer allocated and freed; or the buffer allocated and
    handed to the stack with [std::free] as its release callback.  The table
    and the context are unchanged. *)
Definition read_by_type_buffer_released (w : world) (length_requested : nat)
    (conn : nat) (op : N) (r : result (gatt_status * nat)) : Prop :=
  match r with
  | Ret (st, _) w' =>
      w_tbl w' = w_tbl w /\ w_ctx w' = w_ctx w /\
      ((st = WICED_BT_GATT_INSUF_RESOURCE /\ w_trace w' = w_trace w) \/
       (st = WICED_BT_GATT_INVALID_HANDLE /\
        w_trace w' = w_trace w ++ [EvMalloc length_requested; EvFree]) \/
       (st = WICED_BT_GATT_SUCCESS /\
        exists pair_len used d,
          w_trace w' = w_trace w ++ [EvMalloc length_requested;
                                      EvSendReadByTypeRsp conn op pair_len used d
                                        ReleaseFree]))
  | OutOfFuel => True
  | _ => False
  end.

(** [w] with [evs] appended to its trace. *)
Definition with_events (w : world) (evs : list event) : world :=
  mk_world (w_tbl w) (w_ctx w) (w_trace w ++ evs).

(** ** Connection state machine, OTA agent and dispatcher *)

Definition WICED_BT_SUCCESS : N := 0%N.
Definition CY_RSLT_SUCCESS : N := 0%N.

(** [ble_context::OTA_APP_TAG_VALID]. *)
Definition OTA_APP_TAG_VALID : N := 0x51EDBA15%N.

(** OTA control-point commands (cy_ota_api.h). *)
Definition CY_OTA_UPGRADE_COMMAND_PREPARE_DOWNLOAD : nat := 1.
Definition CY_OTA_UPGRADE_COMMAND_DOWNLOAD : nat := 2.
Definition CY_OTA_UPGRADE_COMMAND_VERIFY : nat := 3.
Definition CY_OTA_UPGRADE_COMMAND_ABORT : nat := 7.

(** [wiced_bt_gatt_connection_status_t]. *)
Record connection_status := mk_connection_status {
  cs_connected : bool;
  cs_conn_id : nat;
  cs_bd_addr : list nat
}.

(** [wiced_bt_gatt_evt_t] with the event data each case reads. *)
Inductive gatt_event :=
  | GATT_CONNECTION_STATUS_EVT (cs : option connection_status)
  | GATT_ATTRIBUTE_REQUEST_EVT (req : attribute_request)
  | GATT_GET_RESPONSE_BUFFER_EVT (len_requested : nat)
  | GATT_APP_BUFFER_TRANSMITTED_EVT (p_app_ctxt : release_cb)
  | GATT_OTHER_EVT.

(** The opcodes [ble_gatt_event_handler] has a case for. *)
Definition handled_opcode (op : N) : bool :=
  existsb (N.eqb op)
    [GATT_REQ_READ; GATT_REQ_READ_BLOB; GATT_REQ_READ_BY_TYPE;
     GATT_REQ_READ_MULTI; GATT_REQ_READ_MULTI_VAR_LENGTH; GATT_REQ_WRITE;
     GATT_CMD_WRITE; GATT_CMD_SIGNED_WRITE; GATT_REQ_PREPARE_WRITE;
     GATT_REQ_EXECUTE_WRITE; GATT_REQ_MTU; GATT_HANDLE_VALUE_CONF;
     GATT_HANDLE_VALUE_NOTIF].

Section Server.

Variable malloc_succeeds : nat -> bool.
Variable wiced_bt_gatt_server_send_read_handle_rsp :
  nat -> N -> nat -> option (list nat) -> gatt_status.
Variable wiced_bt_gatt_find_handle_by_type : nat -> nat -> nat -> nat.
Variable wiced_bt_gatt_put_read_by_type_rsp_in_stream :
  nat -> nat -> nat -> nat -> option (list nat) -> list nat * nat.
Variable wiced_bt_gatt_put_read_multi_rsp_in_stream :
  N -> nat -> nat -> nat -> option (list nat) -> list nat.
Variable wiced_bt_gatt_server_send_mtu_rsp : nat -> nat -> nat -> gatt_status.
Variable ble_max_rx_pdu_size : nat.
(** Result of [wiced_bt_start_advertisements(BTM_BLE_ADVERT_UNDIRECTED_HIGH, ...)]. *)
Variable wiced_bt_start_advertisements : N.
(** The OTA library: results of its entry points (and the context
    [cy_ota_agent_start] stores). *)
Variable cy_ota_agent_start : N * nat.
Variable cy_ota_ble_download_prepare : nat -> nat -> nat -> N.
Variable cy_ota_ble_download : nat -> nat -> nat -> N.
Variable cy_ota_ble_download_verify : nat -> nat -> N.
Variable cy_ota_ble_download_write : nat -> option (list nat) -> N.
Variable cy_ota_get_state : nat -> N.
Variable CY_OTA_STATE_OTA_COMPLETE : N.
Variable CY_RSLT_OTA_ERROR_BADARG : N.
(** Handles generated into cycfg_gatt_db.h. *)
Variable HDLD_OTA_FW_UPGRADE_SERVICE_OTA_UPGRADE_CONTROL_POINT_CLIENT_CHAR_CONFIG : nat.
Variable HDLC_OTA_FW_UPGRADE_SERVICE_OTA_UPGRADE_CONTROL_POINT_VALUE : nat.
Variable HDLC_OTA_FW_UPGRADE_SERVICE_OTA_UPGRADE_DATA_VALUE : nat.

(** [ble_context::update_advertising_led] (the LED results are ignored by
    every caller). *)
Definition update_advertising_led : M unit :=
  ctx <- get_ctx ;;
  let duty := match m_connection_state ctx with
              | disconnected_not_advertising => duty_off
              | disconnected_and_advertising => duty_blinking
              | connected => duty_on
              end in
  emit EvLedStop ;;; emit (EvLedSetBlinkRate duty) ;;; emit EvLedStart.

(** [ble_context::connection_event_handler]. *)
Definition connection_event_handler (connection_status : option connection_status)
    : M gatt_status :=
  match connection_status with
  | None => ret WICED_BT_GATT_ERROR
  | Some cs =>
      (if cs_connected cs then
         ctx <- get_ctx ;;
         put_ctx (set_connection_state
                    (set_peer_address (set_connection_id ctx (cs_conn_id cs))
                       (firstn 6 (cs_bd_addr cs)))
                    connected)
       else
         ctx <- get_ctx ;;
         put_ctx (set_connection_id ctx 0) ;;;
         emit EvStartAdvertisements ;;;
         cy_assert (wiced_bt_start_advertisements =? WICED_BT_SUCCESS)%N ;;;
         ctx <- get_ctx ;;
         put_ctx (set_connection_state ctx disconnected_and_advertising)) ;;;
      update_advertising_led ;;;
      ret WICED_BT_GATT_SUCCESS
  end.

(** [ble_context::ota_agent_initialize]: a failing [cy_ota_agent_start]
    leaves it in a [while (true)] delay loop. *)
Definition ota_agent_initialize : M N :=
  ctx <- get_ctx ;;
  if negb (m_tag ctx =? OTA_APP_TAG_VALID)%N then ret CY_RSLT_OTA_ERROR_BADARG
  else
    put_ctx (ota_value_initialize ctx) ;;;
    emit EvOtaAgentStart ;;;
    let '(result, ota_context) := cy_ota_agent_start in
    ctx <- get_ctx ;;
    put_ctx (set_ota_context ctx ota_context) ;;;
    if negb (result =? CY_RSLT_SUCCESS)%N then spin else ret result.

(** [p_val[0]] of a write request (undefined for an empty value). *)
Definition first_byte {A} (p_val : option (list nat)) (k : nat -> M A) : M A :=
  match p_val with
  | Some (b :: _) => k b
  | _ => stuck
  end.

(** [ble_context::ota_agent_write_handler]; returns the status and
    [*error_handle]. *)
Definition ota_agent_write_handler (h : nat) (p_val : option (list nat))
    : M (gatt_status * nat) :=
  let error_handle := h in
  if h =? HDLD_OTA_FW_UPGRADE_SERVICE_OTA_UPGRADE_CONTROL_POINT_CLIENT_CHAR_CONFIG then
    first_byte p_val (fun b =>
      ctx <- get_ctx ;;
      put_ctx (set_ota_config_descriptor ctx b) ;;;
      ret (WICED_BT_GATT_SUCCESS, error_handle))
  else if h =? HDLC_OTA_FW_UPGRADE_SERVICE_OTA_UPGRADE_CONTROL_POINT_VALUE then
    first_byte p_val (fun cmd =>
      if cmd =? CY_OTA_UPGRADE_COMMAND_PREPARE_DOWNLOAD then
        result <- ota_agent_initialize ;;
        if negb (result =? CY_RSLT_SUCCESS)%N then
          ret (WICED_BT_GATT_ERROR, error_handle)
        else
          ctx <- get_ctx ;;
          emit EvOtaDownloadPrepare ;;;
          if (cy_ota_ble_download_prepare (m_ota_context ctx) (m_connection_id ctx)
                (m_ota_config_descriptor ctx) =? CY_RSLT_SUCCESS)%N
          then ret (WICED_BT_GATT_SUCCESS, error_handle)
          else ret (WICED_BT_GATT_ERROR, error_handle)
      else if cmd =? CY_OTA_UPGRADE_COMMAND_DOWNLOAD then
        ctx <- get_ctx ;;
        emit EvOtaDownload ;;;
        if (cy_ota_ble_download (m_ota_context ctx) (m_connection_id ctx)
              (m_ota_config_descriptor ctx) =? CY_RSLT_SUCCESS)%N
        then ret (WICED_BT_GATT_SUCCESS, error_handle)
        else ret (WICED_BT_GATT_ERROR, error_handle)
      else if cmd =? CY_OTA_UPGRADE_COMMAND_VERIFY then
        ctx <- get_ctx ;;
        emit EvOtaDownloadVerify ;;;
        if (cy_ota_ble_download_verify (m_ota_context ctx) (m_connection_id ctx)
              =? CY_RSLT_SUCCESS)%N
        then ret (WICED_BT_GATT_SUCCESS, error_handle)
        else ret (WICED_BT_GATT_ERROR, error_handle)
      else if cmd =? CY_OTA_UPGRADE_COMMAND_ABORT then
        emit EvOtaDownloadAbort ;;;
        ret (WICED_BT_GATT_SUCCESS, error_handle)
      else ret (WICED_BT_GATT_REQ_NOT_SUPPORTED, error_handle))
  else if h =? HDLC_OTA_FW_UPGRADE_SERVICE_OTA_UPGRADE_DATA_VALUE then
    ctx <- get_ctx ;;
    emit EvOtaDownloadWrite ;;;
    if (cy_ota_ble_download_write (m_ota_context ctx) p_val =? CY_RSLT_SUCCESS)%N
    then ret (WICED_BT_GATT_SUCCESS, error_handle)
    else ret (WICED_BT_GATT_ERROR, error_handle)
  else ret (WICED_BT_GATT_REQ_NOT_SUPPORTED, error_handle).

(** [ble_context::ota_agent_confirmation_handler]. *)
Definition ota_agent_confirmation_handler : M unit :=
  ctx <- get_ctx ;;
  emit EvOtaGetState ;;;
  if (cy_ota_get_state (m_ota_context ctx) =? CY_OTA_STATE_OTA_COMPLETE)%N
     && m_reboot_at_end ctx
  then emit (EvDelayMs 1000) ;;; emit EvSystemReset ;;; halt
  else emit EvOtaAgentStop.

(** [ble_gatt_command_write_handler]. *)
Definition ble_gatt_command_write_handler (h : nat) (p_val : option (list nat))
    (val_len : nat) : M (gatt_status * nat) :=
  let error_handle := h in
  if (h =? HDLD_OTA_FW_UPGRADE_SERVICE_OTA_UPGRADE_CONTROL_POINT_CLIENT_CHAR_CONFIG)
     || (h =? HDLC_OTA_FW_UPGRADE_SERVICE_OTA_UPGRADE_CONTROL_POINT_VALUE)
     || (h =? HDLC_OTA_FW_UPGRADE_SERVICE_OTA_UPGRADE_DATA_VALUE)
  then ota_agent_write_handler h p_val
  else
    tbl <- get_tbl ;;
    let '(status, tbl') := ble_gatt_db_set_value tbl h p_val val_len in
    put_tbl tbl' ;;;
    ret (status, error_handle).

(** [ble_gatt_event_handler]; [error_handle] is [*error_handle] on entry. *)
Definition ble_gatt_event_handler (req : attribute_request) (error_handle : nat)
    : M (gatt_status * nat) :=
  let op := opcode req in
  if (op =? GATT_REQ_READ)%N || (op =? GATT_REQ_READ_BLOB)%N then
    match data req with
    | ReadReq h offset =>
        ble_gatt_request_read_handler wiced_bt_gatt_server_send_read_handle_rsp
          (conn_id req) op h offset (len_requested req)
    | _ => stuck
    end
  else if (op =? GATT_REQ_READ_BY_TYPE)%N then
    match data req with
    | ReadByTypeReq s e uuid =>
        ble_gatt_request_read_by_type_handler malloc_succeeds
          wiced_bt_gatt_find_handle_by_type
          wiced_bt_gatt_put_read_by_type_rsp_in_stream
          (conn_id req) op s e uuid (len_requested req) error_handle
    | _ => stuck
    end
  else if (op =? GATT_REQ_READ_MULTI)%N || (op =? GATT_REQ_READ_MULTI_VAR_LENGTH)%N then
    match data req with
    | ReadMultipleReq stream =>
        ble_gatt_request_read_multi_handler malloc_succeeds
          wiced_bt_gatt_put_read_multi_rsp_in_stream
          (conn_id req) op stream (len_requested req)
    | _ => stuck
    end
  else if (op =? GATT_REQ_WRITE)%N || (op =? GATT_CMD_WRITE)%N
          || (op =? GATT_CMD_SIGNED_WRITE)%N then
    match data req with
    | WriteReq h p_val val_len =>
        r <- ble_gatt_command_write_handler h p_val val_len ;;
        let '(status, eh) := r in
        (if (op =? GATT_REQ_WRITE)%N && (status =? WICED_BT_GATT_SUCCESS)%N
         then emit (EvSendWriteRsp (conn_id req) op h) else ret tt) ;;;
        ret (status, eh)
    | _ => stuck
    end
  else if (op =? GATT_REQ_PREPARE_WRITE)%N then
    ret (WICED_BT_GATT_SUCCESS, error_handle)
  else if (op =? GATT_REQ_EXECUTE_WRITE)%N then
    emit (EvSendExecuteWriteRsp (conn_id req) op) ;;;
    ret (WICED_BT_GATT_SUCCESS, error_handle)
  else if (op =? GATT_REQ_MTU)%N then
    match data req with
    | RemoteMtu mtu =>
        emit (EvSendMtuRsp (conn_id req) mtu ble_max_rx_pdu_size) ;;;
        ret (wiced_bt_gatt_server_send_mtu_rsp (conn_id req) mtu ble_max_rx_pdu_size,
             error_handle)
    | _ => stuck
    end
  else if (op =? GATT_HANDLE_VALUE_CONF)%N then
    ota_agent_confirmation_handler ;;;
    ret (WICED_BT_GATT_SUCCESS, error_handle)
  else if (op =? GATT_HANDLE_VALUE_NOTIF)%N then
    ret (WICED_BT_GATT_SUCCESS, error_handle)
  else
    (* default: break; *)
    ret (gatt_status_value_initialized, error_handle).

(** [ble_gatt_event_callback]. *)
Definition ble_gatt_event_callback (ev : gatt_event) : M gatt_status :=
  match ev with
  | GATT_CONNECTION_STATUS_EVT cs => connection_event_handler cs
  | GATT_ATTRIBUTE_REQUEST_EVT req =>
      let error_handle := 0 in
      r <- ble_gatt_event_handler req error_handle ;;
      let '(status, eh) := r in
      (if negb (status =? WICED_BT_GATT_SUCCESS)%N
       then emit (EvSendErrorRsp (conn_id req) (opcode req) eh status)
       else ret tt) ;;;
      ret status
  | GATT_GET_RESPONSE_BUFFER_EVT len =>
      (if malloc_succeeds len then emit (EvMalloc len) else ret tt) ;;;
      ret WICED_BT_GATT_SUCCESS
  | GATT_APP_BUFFER_TRANSMITTED_EVT p_app_ctxt =>
      (match p_app_ctxt with
       | ReleaseFree => emit EvFree
       | NoRelease => ret tt
       end) ;;;
      ret WICED_BT_GATT_SUCCESS
  | GATT_OTHER_EVT => ret WICED_BT_GATT_SUCCESS
  end.

End Server.

(** ** Battery service task *)

(** [BATTERY_LEVEL_CHANGE], the default [decrease_interval]. *)
Definition BATTERY_LEVEL_CHANGE : Z := 2%Z.
Definition GATT_CLIENT_CONFIG_NOTIFICATION : Z := 1%Z.

(** [battery_service_update_percentage(decrease_interval)] on the byte
    [app_bas_battery_level[0]]: the subtraction is done in [int] and stored
    back into a [uint8_t]. *)
Definition battery_service_update_percentage (level decrease_interval : Z) : Z :=
  if (level =? 0)%Z then 100%Z else ((level - decrease_interval) mod 256)%Z.

(** One iteration of the [while (true)] loop of [battery_service_task] after a
    timer notification: the new battery level and the notification sent. *)
Definition battery_service_task_tick (connection_id : nat) (cccd0 level : Z)
    (HDLC_BAS_BATTERY_LEVEL_VALUE : nat) : Z * list event :=
  if connection_id =? 0 then (level, [])
  else if (Z.land cccd0 GATT_CLIENT_CONFIG_NOTIFICATION =? 0)%Z then (level, [])
  else
    let level' := battery_service_update_percentage level BATTERY_LEVEL_CHANGE in
    (level', [EvSendNotification connection_id HDLC_BAS_BATTERY_LEVEL_VALUE
                [Z.to_nat level']]).

(** ** Concrete states used by the examples *)

Definition sample_world : world :=
  mk_world sample_table
    (mk_ctx 0x51EDBA15%N 0 [] disconnected_not_advertising 0 false 0) [].

(** A table with one 3-byte attribute at handle 1. *)
Definition multi_table : list gatt_db_lookup_table_t :=
  [ mk_entry 1 3 3 (Some [1; 2; 3]) ].

Definition multi_world : world :=
  mk_world multi_table
    (mk_ctx 0x51EDBA15%N 0 [] disconnected_not_advertising 0 false 0) [].

(** ** Advertising mode, context initialisation and stack management *)

(** [wiced_bt_ble_advert_mode_t]: [BTM_BLE_ADVERT_OFF] is the first value of
    the enumeration. *)
Definition BTM_BLE_ADVERT_OFF : N := 0%N.

(** [ble_context::BLE_CONTEXT_TAG_VALID]. *)
Definition BLE_CONTEXT_TAG_VALID : N := 0x51EDBA15%N.

(** [ble_context::connected()]. *)
Definition ble_context_connected (c : ble_context) : bool :=
  0 <? m_connection_id c.

(** [ble_context::set_advertising_mode(advertisement_mode)]. *)
Definition set_advertising_mode (advertisement_mode : N) : M unit :=
  ctx <- get_ctx ;;
  put_ctx (set_connection_state ctx
             (if (advertisement_mode =? BTM_BLE_ADVERT_OFF)%N then
                if m_connection_id ctx =? 0 then disconnected_not_advertising
                else connected
              else disconnected_and_advertising)).

(** [ble_context::default_value_initialize] ([m_connection_parameters] is not
    modelled). *)
Definition default_value_initialize (c : ble_context) : ble_context :=
  {| m_tag := BLE_CONTEXT_TAG_VALID; m_connection_id := 0;
     m_peer_address := m_peer_address c;
     m_connection_state := disconnected_not_advertising;
     m_ota_context := m_ota_context c; m_reboot_at_end := m_reboot_at_end c;
     m_ota_config_descriptor := m_ota_config_descriptor c |}.

(** [wiced_bt_management_evt_t] with the event data the callback reads. *)
Inductive management_evt :=
  | BTM_ENABLED_EVT (status : N)
  | BTM_USER_CONFIRMATION_REQUEST_EVT (bd_addr : list nat)
  | BTM_PASSKEY_NOTIFICATION_EVT
  | BTM_PAIRING_IO_CAPABILITIES_BLE_REQUEST_EVT
  | BTM_PAIRING_COMPLETE_EVT
  | BTM_LOCAL_IDENTITY_KEYS_UPDATE_EVT
  | BTM_LOCAL_IDENTITY_KEYS_REQUEST_EVT
  | BTM_PAIRED_DEVICE_LINK_KEYS_UPDATE_EVT
  | BTM_PAIRED_DEVICE_LINK_KEYS_REQUEST_EVT
  | BTM_ENCRYPTION_STATUS_EVT
  | BTM_SECURITY_REQUEST_EVT (bd_addr : list nat)
  | BTM_BLE_CONNECTION_PARAM_UPDATE
  | BTM_BLE_ADVERT_STATE_CHANGED_EVT (mode : N)
  | BTM_OTHER_MANAGEMENT_EVT.

Section Management.

(** [WICED_BT_ERROR] of [wiced_result_t]. *)
Variable WICED_BT_ERROR : N.
(** Results of [wiced_bt_stack_init], [wiced_bt_gatt_db_init] and
    [wiced_bt_start_advertisements]. *)
Variable wiced_bt_stack_init : N.
Variable wiced_bt_gatt_db_init : N.
Variable wiced_bt_start_advertisements : N.
(** The enumerators of [wiced_bt_dev_io_cap_e], [wiced_bt_dev_oob_data_e],
    [wiced_bt_dev_le_auth_req_e] and [wiced_bt_dev_le_key_type_e] that the
    pairing reply uses. *)
Variable BTM_IO_CAPABILITIES_NONE BTM_OOB_NONE : N.
Variable BTM_LE_AUTH_REQ_BOND BTM_LE_AUTH_REQ_MITM : N.
Variable BTM_LE_KEY_PENC BTM_LE_KEY_PID : N.

(** [ble_context::stack_initialize]. *)
Definition stack_initialize : M N :=
  ctx <- get_ctx ;;
  put_ctx (default_value_initialize ctx) ;;;
  let result := wiced_bt_stack_init in
  cy_assert (result =? WICED_BT_SUCCESS)%N ;;;
  ret result.

(** [ble_start_advertising] (the pairable-mode, advertisement-data and
    callback-registration calls are not recorded in the trace); returns the
    status of [wiced_bt_gatt_db_init]. *)
Definition ble_start_advertising : M N :=
  let gatt_status := wiced_bt_gatt_db_init in
  emit EvStartAdvertisements ;;;
  cy_assert (wiced_bt_start_advertisements =? WICED_BT_SUCCESS)%N ;;;
  ret gatt_status.

(** [ble_context::stack_management_callback] (the local address set and
    read on [BTM_ENABLED_EVT] is not recorded).  The reply to
    [BTM_PAIRING_IO_CAPABILITIES_BLE_REQUEST_EVT], written into
    [event_data] for the stack, is recorded as an event. *)
Definition stack_management_callback (event : management_evt) : M N :=
  match event with
  | BTM_ENABLED_EVT status =>
      if (status =? WICED_BT_SUCCESS)%N then
        gatt_status <- ble_start_advertising ;;
        cy_assert (gatt_status =? WICED_BT_SUCCESS)%N ;;;
        ret WICED_BT_SUCCESS
      else ret WICED_BT_ERROR
  | BTM_USER_CONFIRMATION_REQUEST_EVT bd_addr =>
      emit (EvDevConfirmReqReply WICED_BT_SUCCESS bd_addr) ;;;
      ret WICED_BT_SUCCESS
  | BTM_PAIRING_IO_CAPABILITIES_BLE_REQUEST_EVT =>
      emit (EvPairingIoCapabilitiesReply BTM_IO_CAPABILITIES_NONE BTM_OOB_NONE
              (N.lor BTM_LE_AUTH_REQ_BOND BTM_LE_AUTH_REQ_MITM) 0x10
              (N.lor BTM_LE_KEY_PENC BTM_LE_KEY_PID)
              (N.lor BTM_LE_KEY_PENC BTM_LE_KEY_PID)) ;;;
      ret WICED_BT_SUCCESS
  | BTM_SECURITY_REQUEST_EVT bd_addr =>
      emit (EvBleSecurityGrant bd_addr WICED_BT_SUCCESS) ;;;
      ret WICED_BT_SUCCESS
  | BTM_LOCAL_IDENTITY_KEYS_REQUEST_EVT
  | BTM_PAIRED_DEVICE_LINK_KEYS_REQUEST_EVT
  | BTM_OTHER_MANAGEMENT_EVT => ret WICED_BT_ERROR
  | BTM_BLE_ADVERT_STATE_CHANGED_EVT mode =>
      set_advertising_mode mode ;;;
      update_advertising_led ;;;
      ret WICED_BT_SUCCESS
  | _ => ret WICED_BT_SUCCESS
  end.

End Management.

(** ** Battery service task over several timer notifications *)

(** Whether a timer notification leads to an update and a notification:
    connected, and the notification bit of the CCCD set. *)
Definition battery_tick_notifies (tick : nat * Z) : bool :=
  let '(connection_id, cccd0) := tick in
  negb (connection_id =? 0) &&
  negb (Z.land cccd0 GATT_CLIENT_CONFIG_NOTIFICATION =? 0)%Z.

(** The [while (true)] loop of [battery_service_task] over the timer
    notifications [ticks], each with the connection id and the first CCCD
    byte it reads. *)
Fixpoint battery_service_task_run (ticks : list (nat * Z)) (level : Z)
    (HDLC_BAS_BATTERY_LEVEL_VALUE : nat) : Z * list event :=
  match ticks with
  | [] => (level, [])
  | (connection_id, cccd0) :: rest =>
      let '(level1, evs1) :=
        battery_service_task_tick connection_id cccd0 level
          HDLC_BAS_BATTERY_LEVEL_VALUE in
      let '(level2, evs2) :=
        battery_service_task_run rest level1 HDLC_BAS_BATTERY_LEVEL_VALUE in
      (level2, evs1 ++ evs2)
  end.

(** The battery level after [n] updates. *)
Definition battery_levels_after (n : nat) (level : Z) : Z :=
  Nat.iter n (fun l => battery_service_update_percentage l BATTERY_LEVEL_CHANGE)
    level.

(** ** Further predicates and stack models *)

(** Table invariant: no current length exceeds the maximum length. *)
Definition entry_len_ok (e : gatt_db_lookup_table_t) : bool :=
  cur_len e <=? max_len e.

Definition table_len_ok (tbl : list gatt_db_lookup_table_t) : bool :=
  forallb entry_len_ok tbl.

(** The world a run ends in, if it ends. *)
Definition result_world {A} (r : result A) : option world :=
  match r with
  | Ret _ w | Halt w | Spin w | Stuck w => Some w
  | OutOfFuel => None
  end.

(** [m] never changes the attribute table, however it ends. *)
Definition keeps_table {A} (m : M A) : Prop :=
  forall w w', result_world (m w) = Some w' -> w_tbl w' = w_tbl w.

(** A model of [wiced_bt_gatt_put_read_by_type_rsp_in_stream]: the handle
    (little endian) and the value are written when they fit in the remaining
    room, nothing otherwise; the pair length becomes the item's length. *)
Definition put_read_by_type_rsp_model (room pair_len h len : nat)
    (p : option (list nat)) : list nat * nat :=
  let item := [h mod 256; h / 256] ++ firstn len (value_bytes p) in
  if List.length item <=? room then (item, List.length item) else ([], pair_len).

(** The handles [pre] are the successive matches of the read-by-type scan
    started at [attr_handle]: each is the nonzero handle the type search
    returns from the current start, is in the table and is accepted by the
    stream writer, and the next search starts one past it.  Returns the
    start of the next search, the pair length and the response gathered. *)
Fixpoint read_by_type_scan_prefix (find_handle_by_type : nat -> nat -> nat -> nat)
    (put : nat -> nat -> nat -> nat -> option (list nat) -> list nat * nat)
    (tbl : list gatt_db_lookup_table_t) (e_handle uuid length_requested : nat)
    (pre : list nat) (attr_handle pair_length : nat) (response : list nat)
    : option (nat * nat * list nat) :=
  match pre with
  | [] => Some (attr_handle, pair_length, response)
  | h :: hs =>
      if (h =? 0) || negb (find_handle_by_type attr_handle e_handle uuid =? h) then None
      else
        match ble_gatt_db_find_by_handle tbl h with
        | None => None
        | Some a =>
            let '(filled, pl) :=
              put (length_requested - List.length response) pair_length h
                (cur_len a) (p_data a) in
            if List.length filled =? 0 then None
            else read_by_type_scan_prefix find_handle_by_type put tbl e_handle uuid
                   length_requested hs (to_uint16 (h + 1)) pl (response ++ filled)
        end
  end.

(* ------------------------------------------------------------------ *)
(** * Properties *)
(* ------------------------------------------------------------------ *)

(** ** Attribute store *)

Example set_value_sample :
  ble_gatt_db_set_value sample_table 3 (Some [1]) 1 =
  (WICED_BT_GATT_SUCCESS,
   [ mk_entry 3 4 1 (Some [1; 0; 0; 0]);
     mk_entry 5 1 1 (Some [42]);
     mk_entry 9 2 0 None ]).
Proof. reflexivity. Qed.

Example set_value_too_long :
  fst (ble_gatt_db_set_value sample_table 5 (Some [1; 2]) 2)
  = WICED_BT_GATT_INVALID_ATTR_LEN.
Proof. reflexivity. Qed.

Lemma set_value_tail_buffer (buf v : list nat) (m len : nat) :
  List.length buf = m -> len <= m -> len <= List.length v ->
  let b1 := memcpy buf v len in
  let b2 := if len <? m then memset_at b1 len 0 (m - len) else b1 in
  b2 = firstn len v ++ repeat 0 (m - len).
Proof.
  intros Hb Hm Hv b1 b2. subst b1 b2. unfold memcpy.
  destruct (Nat.ltb_spec len m) as [Hlt | Hge].
  - unfold memset_at.
    assert (Hf : List.length (firstn len v) = len) by (rewrite length_firstn; lia).
    assert (H1 : firstn len (firstn len v ++ skipn len buf) = firstn len v).
    { rewrite firstn_app, Hf, Nat.sub_diag, firstn_O, app_nil_r.
      apply firstn_all2. lia. }
    assert (H2 : skipn (len + (m - len)) (firstn len v ++ skipn len buf) = []).
    { apply skipn_all2. rewrite length_app, Hf, length_skipn. lia. }
    rewrite H1, H2, app_nil_r. reflexivity.
  - replace (m - len) with 0 by lia. simpl.
    rewrite skipn_all2 by lia. reflexivity.
Qed.

Lemma nth_error_zero_tail (pre : list nat) (n k : nat) :
  List.length pre <= k < List.length pre + n ->
  nth_error (pre ++ repeat 0 n) k = Some 0.
Proof.
  intros Hk. rewrite nth_error_app2 by lia.
  apply nth_error_repeat. lia.
Qed.

Lemma set_value_loop_success (tbl tbl' : list gatt_db_lookup_table_t)
    (h len : nat) (v : list nat) :
  set_value_loop h v len tbl = (WICED_BT_GATT_SUCCESS, tbl') ->
  exists pre e rest buf,
    tbl = pre ++ e :: rest /\
    Forall (fun e0 => handle e0 <> h) pre /\
    handle e = h /\ len <= max_len e /\ p_data e = Some buf /\
    tbl' = pre ++ {| handle := h; max_len := max_len e; cur_len := len;
                     p_data := Some (if len <? max_len e
                                     then memset_at (memcpy buf v len) len 0
                                            (max_len e - len)
                                     else memcpy buf v len) |} :: rest.
Proof.
  revert tbl'. induction tbl as [| e tbl IH]; intros tbl' Hrun; simpl in Hrun.
  - discriminate.
  - destruct (Nat.eqb_spec (handle e) h) as [Heq | Hne]; simpl in Hrun.
    + destruct (Nat.ltb_spec (max_len e) len); [discriminate |].
      destruct (p_data e) as [buf |] eqn:Hp; [| discriminate].
      injection Hrun as <-.
      exists [], e, tbl, buf. rewrite Heq. repeat split; auto.
    + destruct (set_value_loop h v len tbl) as [st rest'] eqn:Hl.
      injection Hrun as -> <-.
      destruct (IH rest' eq_refl) as (pre & e1 & rest & buf & -> & Hpre & Hh & Hl1 & Hp & ->).
      exists (e :: pre), e1, rest, buf. repeat split; auto.
Qed.

Lemma set_value_loop_error (tbl tbl' : list gatt_db_lookup_table_t)
    (h len : nat) (v : list nat) (st : gatt_status) :
  set_value_loop h v len tbl = (st, tbl') -> st <> WICED_BT_GATT_SUCCESS ->
  tbl' = tbl.
Proof.
  revert tbl'. induction tbl as [| e tbl IH]; intros tbl' Hrun Hst; simpl in Hrun.
  - congruence.
  - destruct (Nat.eqb_spec (handle e) h); simpl in Hrun.
    + destruct (max_len e <? len); [congruence |].
      destruct (p_data e); congruence.
    + destruct (set_value_loop h v len tbl) as [st' rest'] eqn:Hl.
      injection Hrun as -> <-. f_equal. apply IH; auto.
Qed.

(** Claim C1: after a successful [ble_gatt_db_set_value(h, value, length)]
    (on a table whose buffers have [max_len] bytes, with [value] pointing to
    at least [length] bytes), the first entry with handle [h] has
    [cur_len = length], its first [length] bytes are the input bytes, and
    its bytes [length, max_len) are all zero; the other entries are
    untouched. *)
Theorem set_value_success_entry (tbl tbl' : list gatt_db_lookup_table_t)
    (h len : nat) (value : option (list nat)) :
  table_ok tbl = true ->
  len <= List.length (value_bytes value) ->
  ble_gatt_db_set_value tbl h value len = (WICED_BT_GATT_SUCCESS, tbl') ->
  exists pre e rest buf',
    tbl = pre ++ e :: rest /\
    Forall (fun e0 => handle e0 <> h) pre /\
    handle e = h /\
    tbl' = pre ++ mk_entry h (max_len e) len (Some buf') :: rest /\
    List.length buf' = max_len e /\
    firstn len buf' = firstn len (value_bytes value) /\
    (forall k, len <= k < max_len e -> nth_error buf' k = Some 0).
Proof.
  intros Hok Hv Hrun. unfold ble_gatt_db_set_value in Hrun.
  destruct ((0 <? len) && is_nullptr value); [discriminate |].
  apply set_value_loop_success in Hrun.
  destruct Hrun as (pre & e & rest & buf & -> & Hpre & Hh & Hle & Hp & ->).
  unfold table_ok in Hok. rewrite forallb_app in Hok. simpl in Hok.
  apply andb_prop in Hok as [_ Hok]. apply andb_prop in Hok as [He _].
  unfold entry_buffer_ok in He. rewrite Hp in He. apply Nat.eqb_eq in He.
  rewrite (set_value_tail_buffer buf (value_bytes value) (max_len e) len He Hle Hv).
  exists pre, e, rest, (firstn len (value_bytes value) ++ repeat 0 (max_len e - len)).
  assert (Hfl : List.length (firstn len (value_bytes value)) = len)
    by (rewrite length_firstn; lia).
  repeat split; auto.
  - rewrite length_app, Hfl, repeat_length. lia.
  - rewrite firstn_app, Hfl, Nat.sub_diag, firstn_O, app_nil_r.
    apply firstn_all2. lia.
  - intros k Hk. apply nth_error_zero_tail. rewrite Hfl. lia.
Qed.

Lemma set_value_success_entry_witness :
  table_ok sample_table = true /\ 1 <= List.length (value_bytes (Some [1])) /\
  ble_gatt_db_set_value sample_table 3 (Some [1]) 1 =
    (WICED_BT_GATT_SUCCESS,
     [ mk_entry 3 4 1 (Some [1; 0; 0; 0]); mk_entry 5 1 1 (Some [42]);
       mk_entry 9 2 0 None ]) /\
  exists pre e rest buf',
    sample_table = pre ++ e :: rest /\
    Forall (fun e0 => handle e0 <> 3) pre /\ handle e = 3 /\
    [ mk_entry 3 4 1 (Some [1; 0; 0; 0]); mk_entry 5 1 1 (Some [42]);
      mk_entry 9 2 0 None ] = pre ++ mk_entry 3 (max_len e) 1 (Some buf') :: rest /\
    List.length buf' = max_len e /\
    firstn 1 buf' = firstn 1 (value_bytes (Some [1])) /\
    (forall k, 1 <= k < max_len e -> nth_error buf' k = Some 0).
Proof.
  split; [reflexivity |]. split; [simpl; lia |]. split; [reflexivity |].
  apply (set_value_success_entry sample_table _ 3 1 (Some [1]));
    [reflexivity | simpl; lia | reflexivity].
Defined.

(** Claim C10: a call of [ble_gatt_db_set_value] that does not return
    [WICED_BT_GATT_SUCCESS] leaves every entry of the table as it was. *)
Theorem set_value_error_atomic (tbl tbl' : list gatt_db_lookup_table_t)
    (h len : nat) (value : option (list nat)) (st : gatt_status) :
  ble_gatt_db_set_value tbl h value len = (st, tbl') ->
  st <> WICED_BT_GATT_SUCCESS ->
  tbl' = tbl.
Proof.
  unfold ble_gatt_db_set_value. intros Hrun Hst.
  destruct ((0 <? len) && is_nullptr value).
  - congruence.
  - eapply set_value_loop_error; eauto.
Qed.

Lemma set_value_error_atomic_witness :
  ble_gatt_db_set_value sample_table 5 (Some [1; 2]) 2
    = (WICED_BT_GATT_INVALID_ATTR_LEN, sample_table) /\
  WICED_BT_GATT_INVALID_ATTR_LEN <> WICED_BT_GATT_SUCCESS /\
  sample_table = sample_table.
Proof.
  split; [reflexivity |]. split; [discriminate |].
  apply (set_value_error_atomic sample_table sample_table 5 2 (Some [1; 2])
           WICED_BT_GATT_INVALID_ATTR_LEN); [reflexivity | discriminate].
Defined.

(** ** Request handlers *)

Section ReadProperties.

Variable send_read_handle_rsp : nat -> N -> nat -> option (list nat) -> gatt_status.

Lemma firstn_skipn_nth (b : list nat) (off n k : nat) :
  off + n <= List.length b -> k < n ->
  nth_error (firstn n (skipn off b)) k = nth_error b (off + k).
Proof.
  intros Hlen Hk. rewrite nth_error_firstn.
  destruct (Nat.ltb_spec k n); [| lia].
  rewrite nth_error_skipn. reflexivity.
Qed.

(** Claim C2: a Read or Read-Blob of an existing handle fails with
    [WICED_BT_GATT_INVALID_OFFSET] (and sends nothing) when the offset is at
    or beyond [cur_len], in particular for every offset when [cur_len = 0];
    otherwise one read response of [min(length_requested, cur_len - offset)]
    bytes is sent, the bytes of the attribute from [offset] on. *)
Theorem read_handler_offset_and_length (w : world) (conn : nat) (op : N)
    (rh offset length_requested : nat) (attribute : gatt_db_lookup_table_t) :
  ble_gatt_db_find_by_handle (w_tbl w) rh = Some attribute ->
  (cur_len attribute <= offset ->
   ble_gatt_request_read_handler send_read_handle_rsp conn op rh offset
     length_requested w = Ret (WICED_BT_GATT_INVALID_OFFSET, rh) w) /\
  (offset < cur_len attribute ->
   let n := Nat.min length_requested (cur_len attribute - offset) in
   exists d,
     ble_gatt_request_read_handler send_read_handle_rsp conn op rh offset
       length_requested w =
       Ret (send_read_handle_rsp conn op n d, rh)
           (with_events w [EvSendReadHandleRsp conn op n d]) /\
     (forall b, p_data attribute = Some b -> cur_len attribute <= List.length b ->
        exists bytes, d = Some bytes /\ List.length bytes = n /\
          (forall k, k < n -> nth_error bytes k = nth_error b (offset + k)))).
Proof.
  intros Hfind. unfold ble_gatt_request_read_handler, bind, get_tbl.
  rewrite Hfind. split.
  - intros Hle. destruct (Nat.leb_spec (cur_len attribute) offset); [| lia].
    reflexivity.
  - intros Hlt. cbv zeta.
    set (n := Nat.min length_requested (cur_len attribute - offset)).
    destruct (Nat.leb_spec (cur_len attribute) offset); [lia |].
    eexists. split; [reflexivity |].
    intros b Hb Hlen. rewrite Hb. simpl. eexists. split; [reflexivity |].
    split.
    + rewrite length_firstn, length_skipn. subst n. lia.
    + intros k Hk. apply firstn_skipn_nth; [subst n | ]; lia.
Qed.

End ReadProperties.

Lemma read_handler_offset_and_length_witness :
  ble_gatt_db_find_by_handle (w_tbl sample_world) 3 = Some (mk_entry 3 4 2 (Some [7; 8; 0; 0])) /\
  (2 <= 2 ->
   ble_gatt_request_read_handler (fun _ _ _ _ => WICED_BT_GATT_SUCCESS) 1
     GATT_REQ_READ 3 2 10 sample_world
   = Ret (WICED_BT_GATT_INVALID_OFFSET, 3) sample_world) /\
  (2 < 2 -> exists d,
     ble_gatt_request_read_handler (fun _ _ _ _ => WICED_BT_GATT_SUCCESS) 1
       GATT_REQ_READ 3 2 10 sample_world =
     Ret (WICED_BT_GATT_SUCCESS, 3)
       (with_events sample_world
          [EvSendReadHandleRsp 1 GATT_REQ_READ (Nat.min 10 (2 - 2)) d]) /\
     (forall b, Some [7; 8; 0; 0] = Some b -> 2 <= List.length b ->
        exists bytes, d = Some bytes /\ List.length bytes = Nat.min 10 (2 - 2) /\
          (forall k, k < Nat.min 10 (2 - 2) -> nth_error bytes k = nth_error b (2 + k)))).
Proof.
  split; [reflexivity |].
  apply (read_handler_offset_and_length (fun _ _ _ _ => WICED_BT_GATT_SUCCESS)
           sample_world 1 GATT_REQ_READ 3 2 10 (mk_entry 3 4 2 (Some [7; 8; 0; 0]))).
  reflexivity.
Defined.

Section MultiAttributeProperties.

Variable malloc_succeeds : nat -> bool.
Variable find_handle_by_type : nat -> nat -> nat -> nat.
Variable put_read_by_type :
  nat -> nat -> nat -> nat -> option (list nat) -> list nat * nat.
Variable put_read_multi : N -> nat -> nat -> nat -> option (list nat) -> list nat.

(** Claim C3 (code defect): the read-multiple loop [break]s at the first
    handle found in the table whose value the stream writer no longer
    accepts, and the handles after it are never looked up.  Whatever they
    are, handles missing from the table included, the handler returns
    success and sends the response holding only the data of the handles
    before: the request is not refused, and partial data is sent. *)
Theorem read_multi_unchecked_handles_partial_response (conn : nat) (op : N)
    (h1 h2 : nat) (rest : list nat) (length_requested : nat)
    (a1 a2 : gatt_db_lookup_table_t) (w : world) :
  malloc_succeeds length_requested = true ->
  ble_gatt_db_find_by_handle (w_tbl w) h1 = Some a1 ->
  ble_gatt_db_find_by_handle (w_tbl w) h2 = Some a2 ->
  let filled := put_read_multi op length_requested (handle a1) (cur_len a1)
                  (p_data a1) in
  List.length filled <> 0 ->
  put_read_multi op (length_requested - List.length filled) (handle a2)
    (cur_len a2) (p_data a2) = [] ->
  ble_gatt_request_read_multi_handler malloc_succeeds put_read_multi conn op
    (h1 :: h2 :: rest) length_requested w
  = Ret (WICED_BT_GATT_SUCCESS, h2)
      (with_events w [EvMalloc length_requested;
                      EvSendReadMultipleRsp conn op (List.length filled) filled
                        ReleaseFree]).
Proof.
  intros Hm H1 H2 filled Hnz Hput.
  unfold ble_gatt_request_read_multi_handler, bind, emit, get_tbl, ret.
  rewrite Hm. cbn -[ble_gatt_db_find_by_handle].
  rewrite H1, Nat.sub_0_r. fold filled.
  destruct (Nat.eqb_spec (List.length filled) 0) as [| _]; [contradiction |].
  cbn -[ble_gatt_db_find_by_handle]. rewrite H2, Hput. cbn.
  destruct (Nat.eqb_spec (List.length filled) 0) as [| _]; [contradiction |].
  unfold with_events. cbn. rewrite <- app_assoc. reflexivity.
Qed.

(** Claim C4 (code defect): when the response buffer cannot be allocated,
    read-by-type returns [WICED_BT_GATT_INSUF_RESOURCE], but read-multiple
    returns [WICED_BT_GATT_INVALID_HANDLE]. *)
Theorem read_multi_alloc_failure_status (conn : nat) (op : N)
    (handles : list nat) (length_requested : nat) (w : world)
    (s_handle e_handle uuid eh : nat) :
  malloc_succeeds length_requested = false ->
  ble_gatt_request_read_multi_handler malloc_succeeds put_read_multi conn op
    handles length_requested w
  = Ret (WICED_BT_GATT_INVALID_HANDLE,
         wiced_bt_gatt_get_handle_from_stream handles 0) w /\
  WICED_BT_GATT_INVALID_HANDLE <> WICED_BT_GATT_INSUF_RESOURCE /\
  ble_gatt_request_read_by_type_handler malloc_succeeds find_handle_by_type
    put_read_by_type conn op s_handle e_handle uuid length_requested eh w
  = Ret (WICED_BT_GATT_INSUF_RESOURCE, eh) w.
Proof.
  intros Hm. split; [| split].
  - unfold ble_gatt_request_read_multi_handler, bind, ret. rewrite Hm. reflexivity.
  - discriminate.
  - unfold ble_gatt_request_read_by_type_handler, ret. rewrite Hm. reflexivity.
Qed.

Lemma read_by_type_loop_no_match (fuel : nat) (tbl : list gatt_db_lookup_table_t)
    (e_handle uuid length_requested attr_handle pair_length : nat)
    (response : list nat) :
  find_handle_by_type attr_handle e_handle uuid = 0 ->
  read_by_type_loop find_handle_by_type put_read_by_type (S fuel) tbl e_handle
    uuid length_requested attr_handle pair_length response
  = Some (RbtBreak pair_length response attr_handle).
Proof. intros H. simpl. rewrite H. reflexivity. Qed.

(** Claim C5: a read-by-type whose type scan finds no match returns
    [WICED_BT_GATT_INVALID_HANDLE] (the not-found status), frees the response
    buffer and sends nothing; and on every exit of the handler the buffer is
    either never allocated, freed, or handed to the stack together with
    [std::free] as its release callback. *)
Theorem read_by_type_zero_matches_released (conn : nat) (op : N)
    (s_handle e_handle uuid length_requested eh : nat) (w : world) :
  (malloc_succeeds length_requested = true ->
   find_handle_by_type s_handle e_handle uuid = 0 ->
   ble_gatt_request_read_by_type_handler malloc_succeeds find_handle_by_type
     put_read_by_type conn op s_handle e_handle uuid length_requested eh w
   = Ret (WICED_BT_GATT_INVALID_HANDLE, s_handle)
         (with_events w [EvMalloc length_requested; EvFree])) /\
  read_by_type_buffer_released w length_requested conn op
    (ble_gatt_request_read_by_type_handler malloc_succeeds find_handle_by_type
       put_read_by_type conn op s_handle e_handle uuid length_requested eh w).
Proof.
  unfold ble_gatt_request_read_by_type_handler, bind, emit, get_tbl, ret.
  split.
  - intros Hm Hf. rewrite Hm. cbn -[read_by_type_fuel read_by_type_loop].
    unfold read_by_type_fuel.
    rewrite read_by_type_loop_no_match by exact Hf.
    cbn. unfold with_events. rewrite <- app_assoc. reflexivity.
  - set (fuel := read_by_type_fuel). clearbody fuel.
    destruct (malloc_succeeds length_requested); cbn -[read_by_type_loop].
    + destruct (read_by_type_loop find_handle_by_type put_read_by_type fuel
                  (w_tbl w) e_handle uuid length_requested s_handle 0 [])
        as [[pl response eh' | eh'] |]; cbn.
      * destruct (List.length response =? 0); cbn;
          (split; [reflexivity | split; [reflexivity |]]); rewrite <- app_assoc.
        -- right; left. auto.
        -- right; right. split; [reflexivity |]. do 3 eexists. reflexivity.
      * split; [reflexivity | split; [reflexivity |]].
        right; left. rewrite <- app_assoc. auto.
      * exact I.
    + split; [reflexivity | split; [reflexivity |]]. left. auto.
Qed.

End MultiAttributeProperties.

Lemma read_multi_unchecked_handles_partial_response_witness :
  ble_gatt_db_find_by_handle multi_table 99 = None /\
  ble_gatt_request_read_multi_handler (fun _ => true) put_read_multi_rsp_model
    7 GATT_REQ_READ_MULTI [1; 1; 99] 3 multi_world
  = Ret (WICED_BT_GATT_SUCCESS, 1)
      (with_events multi_world
         [EvMalloc 3; EvSendReadMultipleRsp 7 GATT_REQ_READ_MULTI 3 [1; 2; 3] ReleaseFree]).
Proof.
  split; [reflexivity |].
  exact (read_multi_unchecked_handles_partial_response (fun _ => true)
           put_read_multi_rsp_model 7 GATT_REQ_READ_MULTI 1 1 [99] 3
           (mk_entry 1 3 3 (Some [1; 2; 3])) (mk_entry 1 3 3 (Some [1; 2; 3]))
           multi_world eq_refl eq_refl eq_refl ltac:(vm_compute; discriminate) eq_refl).
Defined.

Lemma read_multi_alloc_failure_status_witness :
  ble_gatt_request_read_multi_handler (fun _ => false) put_read_multi_rsp_model
    7 GATT_REQ_READ_MULTI [1] 10 multi_world
  = Ret (WICED_BT_GATT_INVALID_HANDLE, 1) multi_world /\
  WICED_BT_GATT_INVALID_HANDLE <> WICED_BT_GATT_INSUF_RESOURCE /\
  ble_gatt_request_read_by_type_handler (fun _ => false) (fun _ _ _ => 0)
    (fun _ _ _ _ _ => ([], 0)) 7 GATT_REQ_READ_BY_TYPE 1 5 0x2A19 10 0 multi_world
  = Ret (WICED_BT_GATT_INSUF_RESOURCE, 0) multi_world.
Proof.
  apply (read_multi_alloc_failure_status (fun _ => false) (fun _ _ _ => 0)
           (fun _ _ _ _ _ => ([], 0)) put_read_multi_rsp_model 7
           GATT_REQ_READ_MULTI [1] 10 multi_world 1 5 0x2A19 0).
  reflexivity.
Defined.

Lemma read_by_type_zero_matches_released_witness :
  ble_gatt_request_read_by_type_handler (fun _ => true) (fun _ _ _ => 0)
    (fun _ _ _ _ _ => ([], 0)) 7 GATT_REQ_READ_BY_TYPE 1 5 0x2A19 10 0 multi_world
  = Ret (WICED_BT_GATT_INVALID_HANDLE, 1)
        (with_events multi_world [EvMalloc 10; EvFree]).
Proof.
  apply (read_by_type_zero_matches_released (fun _ => true) (fun _ _ _ => 0)
           (fun _ _ _ _ _ => ([], 0)) 7 GATT_REQ_READ_BY_TYPE 1 5 0x2A19 10 0
           multi_world); reflexivity.
Defined.

(** ** Dispatcher *)

Section DispatcherProperties.

Variable malloc_succeeds : nat -> bool.
Variable send_read_handle_rsp : nat -> N -> nat -> option (list nat) -> gatt_status.
Variable find_handle_by_type : nat -> nat -> nat -> nat.
Variable put_read_by_type :
  nat -> nat -> nat -> nat -> option (list nat) -> list nat * nat.
Variable put_read_multi : N -> nat -> nat -> nat -> option (list nat) -> list nat.
Variable send_mtu_rsp : nat -> nat -> nat -> gatt_status.
Variable max_rx_pdu_size : nat.
Variable start_advertisements : N.
Variable agent_start : N * nat.
Variable download_prepare : nat -> nat -> nat -> N.
Variable download : nat -> nat -> nat -> N.
Variable download_verify : nat -> nat -> N.
Variable download_write : nat -> option (list nat) -> N.
Variable get_state : nat -> N.
Variable state_ota_complete : N.
Variable error_badarg : N.
Variable hdl_cp_cccd hdl_cp_value hdl_data_value : nat.

(** Claim C6 (code defect): an attribute request whose opcode has no case in
    [ble_gatt_event_handler] takes the [default] branch, which leaves the
    value-initialised status [0] = [WICED_BT_GATT_SUCCESS]; the callback
    therefore returns success and sends no error response (the trace is
    unchanged). *)
Theorem unhandled_opcode_reported_as_success (req : attribute_request) (w : world) :
  handled_opcode (opcode req) = false ->
  ble_gatt_event_callback malloc_succeeds send_read_handle_rsp find_handle_by_type
    put_read_by_type put_read_multi send_mtu_rsp max_rx_pdu_size
    start_advertisements agent_start download_prepare download download_verify
    download_write get_state state_ota_complete error_badarg hdl_cp_cccd
    hdl_cp_value hdl_data_value (GATT_ATTRIBUTE_REQUEST_EVT req) w
  = Ret WICED_BT_GATT_SUCCESS w.
Proof.
  intros Hop. unfold handled_opcode in Hop. simpl in Hop.
  repeat match goal with
         | H : (_ || _) = false |- _ => apply orb_false_iff in H as [? H]
         end.
  unfold ble_gatt_event_callback, ble_gatt_event_handler, bind, ret. simpl.
  repeat match goal with
         | H : (opcode req =? _)%N = false |- _ => rewrite H
         end.
  reflexivity.
Qed.

End DispatcherProperties.

(** ** Connection state machine *)

Section ConnectionProperties.

Variable start_advertisements : N.

(** Claim C7: on a disconnection event the handler clears [m_connection_id]
    to [0] and issues exactly one advertising-start request; if the stack
    rejects it the program stops in [CY_ASSERT(false)], otherwise the state
    becomes [disconnected_and_advertising], the LED is restarted with the
    blinking pattern and the handler returns success. *)
Theorem disconnect_event_restarts_advertising (cs : connection_status) (w : world) :
  cs_connected cs = false ->
  let ctx' := set_connection_state (set_connection_id (w_ctx w) 0)
                disconnected_and_advertising in
  m_connection_id ctx' = 0 /\
  m_connection_state ctx' = disconnected_and_advertising /\
  (start_advertisements = WICED_BT_SUCCESS ->
   connection_event_handler start_advertisements (Some cs) w
   = Ret WICED_BT_GATT_SUCCESS
       (mk_world (w_tbl w) ctx'
          (w_trace w ++ [EvStartAdvertisements; EvLedStop;
                         EvLedSetBlinkRate duty_blinking; EvLedStart]))) /\
  (start_advertisements <> WICED_BT_SUCCESS ->
   connection_event_handler start_advertisements (Some cs) w
   = Halt (mk_world (w_tbl w) (set_connection_id (w_ctx w) 0)
             (w_trace w ++ [EvStartAdvertisements]))).
Proof.
  intros Hdis ctx'. split; [reflexivity |]. split; [reflexivity |].
  unfold connection_event_handler, update_advertising_led, cy_assert,
    bind, ret, emit, get_ctx, put_ctx, halt.
  rewrite Hdis. split.
  - intros Hok. rewrite Hok. simpl. rewrite <- !app_assoc. reflexivity.
  - intros Hko. destruct (N.eqb_spec start_advertisements WICED_BT_SUCCESS);
      [contradiction |]. reflexivity.
Qed.

End ConnectionProperties.

(** ** OTA write handler *)

Section OtaProperties.

Variable agent_start : N * nat.
Variable download_prepare : nat -> nat -> nat -> N.
Variable download : nat -> nat -> nat -> N.
Variable download_verify : nat -> nat -> N.
Variable download_write : nat -> option (list nat) -> N.
Variable error_badarg : N.
Variable hdl_cp_cccd hdl_cp_value hdl_data_value : nat.

(** Claim C9: a prepare-download command written to the control point while
    [m_tag] is not [OTA_APP_TAG_VALID] returns [WICED_BT_GATT_ERROR] and
    leaves the state and the trace unchanged, so [cy_ota_agent_start] is not
    called for it. *)
Theorem prepare_with_invalid_tag_fails (rest : list nat) (w : world) :
  m_tag (w_ctx w) <> OTA_APP_TAG_VALID ->
  hdl_cp_value <> hdl_cp_cccd ->
  error_badarg <> CY_RSLT_SUCCESS ->
  ota_agent_write_handler agent_start download_prepare download download_verify
    download_write error_badarg hdl_cp_cccd hdl_cp_value hdl_data_value
    hdl_cp_value (Some (CY_OTA_UPGRADE_COMMAND_PREPARE_DOWNLOAD :: rest)) w
  = Ret (WICED_BT_GATT_ERROR, hdl_cp_value) w.
Proof.
  intros Htag Hne Hbad.
  unfold ota_agent_write_handler, first_byte, ota_agent_initialize,
    bind, ret, get_ctx.
  destruct (Nat.eqb_spec hdl_cp_value hdl_cp_cccd); [contradiction |].
  rewrite Nat.eqb_refl. simpl.
  destruct (N.eqb_spec (m_tag (w_ctx w)) OTA_APP_TAG_VALID); [contradiction |].
  simpl.
  destruct (N.eqb_spec error_badarg CY_RSLT_SUCCESS); [contradiction |].
  reflexivity.
Qed.

End OtaProperties.

(** ** Battery service *)

Lemma battery_levels_after_descent (n : nat) :
  forall level : Z, (2 * Z.of_nat n < level)%Z -> (level <= 255)%Z ->
  battery_levels_after n level = (level - 2 * Z.of_nat n)%Z.
Proof.
  induction n as [| n IH]; intros level Hlt Hle.
  - simpl. lia.
  - unfold battery_levels_after. rewrite Nat.iter_succ_r.
    fold (battery_levels_after n
            (battery_service_update_percentage level BATTERY_LEVEL_CHANGE)).
    unfold battery_service_update_percentage, BATTERY_LEVEL_CHANGE.
    destruct (Z.eqb_spec level 0); [lia |].
    rewrite Z.mod_small by lia.
    rewrite IH by lia. lia.
Qed.

(** Claim C8 (code defect): the update resets the level to 100 only when it
    is exactly 0.  From any odd level in [0, 100] the level goes down by 2
    through odd values, never reaching 0, until after [(level + 1) / 2]
    updates it wraps below 0 to 255, above 100. *)
Theorem battery_update_odd_level_wraps (level : Z) :
  (0 <= level <= 100)%Z -> Z.odd level = true ->
  (forall n, (n < Z.to_nat ((level + 1) / 2))%nat ->
     battery_levels_after n level <> 0%Z) /\
  battery_levels_after (Z.to_nat ((level + 1) / 2)) level = 255%Z.
Proof.
  intros Hr Hodd.
  destruct (Z.odd_spec level) as [Ho _]. destruct (Ho Hodd) as [k Hk].
  assert (Hkn : Z.to_nat ((level + 1) / 2) = S (Z.to_nat k)).
  { rewrite Hk. replace (2 * k + 1 + 1)%Z with ((k + 1) * 2)%Z by lia.
    rewrite Z.div_mul by lia. rewrite Z2Nat.inj_add by lia. simpl. lia. }
  rewrite Hkn. split.
  - intros n Hn.
    rewrite battery_levels_after_descent; lia.
  - unfold battery_levels_after. rewrite Nat.iter_succ.
    fold (battery_levels_after (Z.to_nat k) level).
    rewrite battery_levels_after_descent by lia.
    rewrite Z2Nat.id by lia.
    replace (level - 2 * k)%Z with 1%Z by lia. reflexivity.
Qed.

Lemma battery_update_odd_level_wraps_witness :
  battery_levels_after 1 1 = 255%Z /\ battery_levels_after 3 5 = 255%Z /\
  battery_levels_after 2 5 <> 0%Z.
Proof.
  split; [| split].
  - exact (proj2 (battery_update_odd_level_wraps 1 ltac:(lia) eq_refl)).
  - exact (proj2 (battery_update_odd_level_wraps 5 ltac:(lia) eq_refl)).
  - apply (proj1 (battery_update_odd_level_wraps 5 ltac:(lia) eq_refl)).
    vm_compute. lia.
Defined.

(** ** Witnesses of the dispatcher, connection and OTA properties *)

Lemma unhandled_opcode_reported_as_success_witness :
  handled_opcode GATT_REQ_FIND_INFO = false /\
  ble_gatt_event_callback (fun _ => true) (fun _ _ _ _ => WICED_BT_GATT_SUCCESS)
    (fun _ _ _ => 0) (fun _ _ _ _ _ => ([], 0)) put_read_multi_rsp_model
    (fun _ _ _ => WICED_BT_GATT_SUCCESS) 247 WICED_BT_SUCCESS (CY_RSLT_SUCCESS, 1)
    (fun _ _ _ => CY_RSLT_SUCCESS) (fun _ _ _ => CY_RSLT_SUCCESS)
    (fun _ _ => CY_RSLT_SUCCESS) (fun _ _ => CY_RSLT_SUCCESS) (fun _ => 0%N)
    5%N 1%N 20 21 23
    (GATT_ATTRIBUTE_REQUEST_EVT (mk_request 7 GATT_REQ_FIND_INFO 23 NoRequestData))
    sample_world
  = Ret WICED_BT_GATT_SUCCESS sample_world.
Proof.
  split; [reflexivity |].
  apply (unhandled_opcode_reported_as_success (fun _ => true)
           (fun _ _ _ _ => WICED_BT_GATT_SUCCESS) (fun _ _ _ => 0)
           (fun _ _ _ _ _ => ([], 0)) put_read_multi_rsp_model
           (fun _ _ _ => WICED_BT_GATT_SUCCESS) 247 WICED_BT_SUCCESS
           (CY_RSLT_SUCCESS, 1) (fun _ _ _ => CY_RSLT_SUCCESS)
           (fun _ _ _ => CY_RSLT_SUCCESS) (fun _ _ => CY_RSLT_SUCCESS)
           (fun _ _ => CY_RSLT_SUCCESS) (fun _ => 0%N) 5%N 1%N 20 21 23
           (mk_request 7 GATT_REQ_FIND_INFO 23 NoRequestData) sample_world).
  reflexivity.
Defined.

Lemma disconnect_event_restarts_advertising_witness :
  connection_event_handler WICED_BT_SUCCESS
    (Some (mk_connection_status false 7 [1; 2; 3; 4; 5; 6])) sample_world
  = Ret WICED_BT_GATT_SUCCESS
      (mk_world sample_table
         (mk_ctx 0x51EDBA15%N 0 [] disconnected_and_advertising 0 false 0)
         [EvStartAdvertisements; EvLedStop; EvLedSetBlinkRate duty_blinking;
          EvLedStart]).
Proof.
  destruct (disconnect_event_restarts_advertising WICED_BT_SUCCESS
              (mk_connection_status false 7 [1; 2; 3; 4; 5; 6]) sample_world
              eq_refl) as (_ & _ & Hok & _).
  exact (Hok eq_refl).
Defined.

Lemma prepare_with_invalid_tag_fails_witness :
  ota_agent_write_handler (CY_RSLT_SUCCESS, 1) (fun _ _ _ => CY_RSLT_SUCCESS)
    (fun _ _ _ => CY_RSLT_SUCCESS) (fun _ _ => CY_RSLT_SUCCESS)
    (fun _ _ => CY_RSLT_SUCCESS) 1%N 20 21 23 21
    (Some [CY_OTA_UPGRADE_COMMAND_PREPARE_DOWNLOAD])
    (mk_world [] (mk_ctx 0xDEADBEEF%N 7 [] connected 0 true 0) [])
  = Ret (WICED_BT_GATT_ERROR, 21)
      (mk_world [] (mk_ctx 0xDEADBEEF%N 7 [] connected 0 true 0) []).
Proof.
  apply (prepare_with_invalid_tag_fails (CY_RSLT_SUCCESS, 1)
           (fun _ _ _ => CY_RSLT_SUCCESS) (fun _ _ _ => CY_RSLT_SUCCESS)
           (fun _ _ => CY_RSLT_SUCCESS) (fun _ _ => CY_RSLT_SUCCESS) 1%N 20 21 23
           [] (mk_world [] (mk_ctx 0xDEADBEEF%N 7 [] connected 0 true 0) []));
    [discriminate | discriminate | discriminate].
Defined.
(** ** Further properties: attribute store *)

Lemma set_value_guard_false (value : option (list nat)) (len : nat) :
  (len = 0 \/ value <> None) -> (0 <? len) && is_nullptr value = false.
Proof.
  intros [-> | Hv]; [reflexivity |].
  destruct value; simpl; [apply andb_false_r | contradiction].
Qed.

Lemma set_value_loop_not_found (tbl : list gatt_db_lookup_table_t)
    (h len : nat) (v : list nat) :
  ble_gatt_db_find_by_handle tbl h = None ->
  set_value_loop h v len tbl = (WICED_BT_GATT_INVALID_HANDLE, tbl).
Proof.
  unfold ble_gatt_db_find_by_handle.
  induction tbl as [| e tbl IH]; simpl; intros Hf; [reflexivity |].
  destruct (handle e =? h); simpl; [discriminate |].
  rewrite (IH Hf). reflexivity.
Qed.

Lemma set_value_loop_first_match (tbl : list gatt_db_lookup_table_t)
    (h len : nat) (v : list nat) (e : gatt_db_lookup_table_t) :
  ble_gatt_db_find_by_handle tbl h = Some e ->
  fst (set_value_loop h v len tbl) =
    if max_len e <? len then WICED_BT_GATT_INVALID_ATTR_LEN
    else match p_data e with
         | None => WICED_BT_GATT_ERROR
         | Some _ => WICED_BT_GATT_SUCCESS
         end.
Proof.
  unfold ble_gatt_db_find_by_handle.
  induction tbl as [| x tbl IH]; simpl; intros Hf; [discriminate |].
  destruct (handle x =? h); simpl.
  - injection Hf as ->. destruct (max_len e <? len); [reflexivity |].
    destruct (p_data e); reflexivity.
  - specialize (IH Hf). destruct (set_value_loop h v len tbl) as [st r].
    exact IH.
Qed.

Lemma find_by_handle_after_prefix (pre rest : list gatt_db_lookup_table_t)
    (x : gatt_db_lookup_table_t) (h : nat) :
  Forall (fun e0 => handle e0 <> h) pre -> handle x = h ->
  ble_gatt_db_find_by_handle (pre ++ x :: rest) h = Some x.
Proof.
  intros Hpre Hx. unfold ble_gatt_db_find_by_handle.
  induction Hpre as [| y pre Hy _ IH]; simpl.
  - rewrite Hx, Nat.eqb_refl. reflexivity.
  - destruct (Nat.eqb_spec (handle y) h); [contradiction | exact IH].
Qed.

(** A write to a handle that is not in the table (with a value pointer, or
    of length [0]) returns [WICED_BT_GATT_INVALID_HANDLE] and changes
    nothing. *)
Theorem set_value_unknown_handle (tbl : list gatt_db_lookup_table_t)
    (h len : nat) (value : option (list nat)) :
  ble_gatt_db_find_by_handle tbl h = None ->
  (len = 0 \/ value <> None) ->
  ble_gatt_db_set_value tbl h value len = (WICED_BT_GATT_INVALID_HANDLE, tbl).
Proof.
  intros Hf Hg. unfold ble_gatt_db_set_value.
  rewrite (set_value_guard_false value len Hg).
  apply set_value_loop_not_found. exact Hf.
Qed.

(** A [nullptr] value with a positive length is refused with
    [WICED_BT_GATT_INVALID_PDU] before the table is searched, whatever the
    handle. *)
Theorem set_value_null_value_rejected (tbl : list gatt_db_lookup_table_t)
    (h len : nat) :
  0 < len ->
  ble_gatt_db_set_value tbl h None len = (WICED_BT_GATT_INVALID_PDU, tbl).
Proof.
  intros Hlen. unfold ble_gatt_db_set_value.
  destruct (Nat.ltb_spec 0 len); [reflexivity | lia].
Qed.

(** When the handle is in the table, the status of a write is
    [WICED_BT_GATT_INVALID_PDU] for a [nullptr] value with a positive
    length; otherwise it is decided by the first entry with that handle: too
    long a value gives [WICED_BT_GATT_INVALID_ATTR_LEN], an entry without a
    buffer [WICED_BT_GATT_ERROR], any other [WICED_BT_GATT_SUCCESS]. *)
Theorem set_value_status_first_match (tbl : list gatt_db_lookup_table_t)
    (h len : nat) (value : option (list nat)) (e : gatt_db_lookup_table_t) :
  ble_gatt_db_find_by_handle tbl h = Some e ->
  fst (ble_gatt_db_set_value tbl h value len) =
    if (0 <? len) && is_nullptr value then WICED_BT_GATT_INVALID_PDU
    else if max_len e <? len then WICED_BT_GATT_INVALID_ATTR_LEN
    else match p_data e with
         | None => WICED_BT_GATT_ERROR
         | Some _ => WICED_BT_GATT_SUCCESS
         end.
Proof.
  intros Hf. unfold ble_gatt_db_set_value.
  destruct ((0 <? len) && is_nullptr value); [reflexivity |].
  apply set_value_loop_first_match. exact Hf.
Qed.

(** Every call of [ble_gatt_db_set_value] keeps the handles and maximum
    lengths of the table, and keeps the invariants "each buffer has
    [max_len] bytes" and "[cur_len <= max_len]" when the source holds at
    least [length] bytes. *)
Theorem set_value_preserves_table_invariants
    (tbl tbl' : list gatt_db_lookup_table_t) (h len : nat)
    (value : option (list nat)) (st : gatt_status) :
  table_ok tbl = true -> table_len_ok tbl = true ->
  len <= List.length (value_bytes value) ->
  ble_gatt_db_set_value tbl h value len = (st, tbl') ->
  map handle tbl' = map handle tbl /\ map max_len tbl' = map max_len tbl /\
  table_ok tbl' = true /\ table_len_ok tbl' = true.
Proof.
  intros Hok Hlen Hv Hrun. unfold ble_gatt_db_set_value in Hrun.
  destruct ((0 <? len) && is_nullptr value).
  { injection Hrun as _ <-. auto. }
  destruct (N.eq_dec st WICED_BT_GATT_SUCCESS) as [-> | Hst].
  2: { apply set_value_loop_error in Hrun; [subst tbl'; auto | exact Hst]. }
  apply set_value_loop_success in Hrun.
  destruct Hrun as (pre & e & rest & buf & -> & Hpre & Hh & Hle & Hp & ->).
  unfold table_ok, table_len_ok in *. rewrite forallb_app in Hok, Hlen |- *.
  rewrite forallb_app. simpl in *.
  apply andb_prop in Hok as [Hok1 Hok]. apply andb_prop in Hok as [He Hok2].
  apply andb_prop in Hlen as [Hl1 Hlen]. apply andb_prop in Hlen as [_ Hl2].
  unfold entry_buffer_ok in He. rewrite Hp in He. apply Nat.eqb_eq in He.
  rewrite (set_value_tail_buffer buf (value_bytes value) (max_len e) len He Hle Hv).
  rewrite !map_app. simpl. rewrite Hh.
  split; [reflexivity |]. split; [reflexivity |].
  rewrite Hok1, Hok2, Hl1, Hl2.
  unfold entry_buffer_ok, entry_len_ok. simpl.
  rewrite length_app, length_firstn, repeat_length.
  rewrite !andb_true_r. split.
  - apply Nat.eqb_eq. lia.
  - apply Nat.leb_le. exact Hle.
Qed.

(** Write-then-read round trip: after a successful write of [len > 0] bytes
    of [v] to handle [h], a read of [h] at offset [0] asking for at least
    [len] bytes sends exactly the first [len] bytes of [v]. *)
Theorem write_then_read_round_trip
    (send : nat -> N -> nat -> option (list nat) -> gatt_status)
    (tbl tbl' : list gatt_db_lookup_table_t) (h len lreq conn : nat) (op : N)
    (v : list nat) (ctx : ble_context) (tr : list event) :
  table_ok tbl = true -> 0 < len -> len <= List.length v -> len <= lreq ->
  ble_gatt_db_set_value tbl h (Some v) len = (WICED_BT_GATT_SUCCESS, tbl') ->
  ble_gatt_request_read_handler send conn op h 0 lreq (mk_world tbl' ctx tr)
  = Ret (send conn op len (Some (firstn len v)), h)
        (mk_world tbl' ctx (tr ++ [EvSendReadHandleRsp conn op len
                                      (Some (firstn len v))])).
Proof.
  intros Hok Hpos Hv Hreq Hrun. unfold ble_gatt_db_set_value in Hrun.
  destruct ((0 <? len) && is_nullptr (Some v)); [discriminate |].
  apply set_value_loop_success in Hrun.
  destruct Hrun as (pre & e & rest & buf & -> & Hpre & Hh & Hle & Hp & ->).
  unfold table_ok in Hok. rewrite forallb_app in Hok. simpl in Hok.
  apply andb_prop in Hok as [_ Hok]. apply andb_prop in Hok as [He _].
  unfold entry_buffer_ok in He. rewrite Hp in He. apply Nat.eqb_eq in He.
  change (value_bytes (Some v)) with v.
  rewrite (set_value_tail_buffer buf v (max_len e) len He Hle Hv).
  unfold ble_gatt_request_read_handler, bind, get_tbl, emit, ret. simpl.
  rewrite find_by_handle_after_prefix by auto. simpl.
  destruct (Nat.leb_spec len 0); [lia |].
  replace (Nat.min lreq (len - 0)) with len by lia.
  assert (Hfl : List.length (firstn len v) = len) by (rewrite length_firstn; lia).
  rewrite firstn_app, Hfl, Nat.sub_diag, firstn_O, app_nil_r.
  rewrite firstn_all2 by lia. reflexivity.
Qed.

(** ** Further properties: read handlers *)

Section ReadHandlerExtras.

Variable send_read_handle_rsp : nat -> N -> nat -> option (list nat) -> gatt_status.

(** A read of a handle that is not in the table returns
    [WICED_BT_GATT_INVALID_HANDLE] with that handle and sends nothing. *)
Theorem read_handler_unknown_handle (w : world) (conn : nat) (op : N)
    (rh offset length_requested : nat) :
  ble_gatt_db_find_by_handle (w_tbl w) rh = None ->
  ble_gatt_request_read_handler send_read_handle_rsp conn op rh offset
    length_requested w = Ret (WICED_BT_GATT_INVALID_HANDLE, rh) w.
Proof.
  intros Hf. unfold ble_gatt_request_read_handler, bind, get_tbl, ret.
  rewrite Hf. reflexivity.
Qed.

(** The read handler always returns, with the requested handle as error
    handle, leaves the table and the context as they were, and sends at most
    one response. *)
Theorem read_handler_state_preserved (w : world) (conn : nat) (op : N)
    (rh offset length_requested : nat) :
  exists st evs,
    ble_gatt_request_read_handler send_read_handle_rsp conn op rh offset
      length_requested w = Ret (st, rh) (with_events w evs) /\
    List.length evs <= 1.
Proof.
  unfold ble_gatt_request_read_handler, bind, get_tbl, ret, emit, with_events.
  destruct (ble_gatt_db_find_by_handle (w_tbl w) rh) as [a |].
  - destruct (cur_len a <=? offset).
    + exists WICED_BT_GATT_INVALID_OFFSET, []. rewrite app_nil_r.
      destruct w; split; [reflexivity | simpl; lia].
    + eexists _, [_]. split; [reflexivity | simpl; lia].
  - exists WICED_BT_GATT_INVALID_HANDLE, []. rewrite app_nil_r.
    destruct w; split; [reflexivity | simpl; lia].
Qed.

End ReadHandlerExtras.

Section MultiReadExtras.

Variable malloc_succeeds : nat -> bool.
Variable find_handle_by_type : nat -> nat -> nat -> nat.
Variable put_read_by_type :
  nat -> nat -> nat -> nat -> option (list nat) -> list nat * nat.
Variable put_read_multi : N -> nat -> nat -> nat -> option (list nat) -> list nat.

Lemma read_by_type_loop_lookup_failed (fuel : nat)
    (tbl : list gatt_db_lookup_table_t)
    (e_handle uuid length_requested attr_handle pair_length h : nat)
    (response : list nat) :
  find_handle_by_type attr_handle e_handle uuid = h -> h <> 0 ->
  ble_gatt_db_find_by_handle tbl h = None ->
  read_by_type_loop find_handle_by_type put_read_by_type (S fuel) tbl e_handle
    uuid length_requested attr_handle pair_length response
  = Some (RbtLookupFailed attr_handle).
Proof.
  intros Hf Hnz Hl. simpl. rewrite Hf.
  destruct (Nat.eqb_spec h 0); [contradiction |]. rewrite Hl. reflexivity.
Qed.

Lemma read_by_type_loop_bounded (tbl : list gatt_db_lookup_table_t)
    (e_handle uuid length_requested : nat) :
  (forall room pl h len d, List.length (fst (put_read_by_type room pl h len d)) <= room) ->
  forall fuel attr_handle pair_length response pl' response' eh,
  List.length response <= length_requested ->
  read_by_type_loop find_handle_by_type put_read_by_type fuel tbl e_handle uuid
    length_requested attr_handle pair_length response
  = Some (RbtBreak pl' response' eh) ->
  List.length response' <= length_requested.
Proof.
  intros Hput fuel. induction fuel as [| fuel IH];
    intros ah pl resp pl' resp' eh Hr Hrun; simpl in Hrun; [discriminate |].
  destruct (find_handle_by_type ah e_handle uuid =? 0).
  { injection Hrun as _ <- _. exact Hr. }
  destruct (ble_gatt_db_find_by_handle tbl (find_handle_by_type ah e_handle uuid))
    as [a |]; [| discriminate].
  pose proof (Hput (length_requested - List.length resp) pl
                (find_handle_by_type ah e_handle uuid) (cur_len a) (p_data a)) as Hb.
  destruct (put_read_by_type (length_requested - List.length resp) pl
              (find_handle_by_type ah e_handle uuid) (cur_len a) (p_data a))
    as [filled pl2].
  simpl in Hb.
  destruct (List.length filled =? 0).
  { injection Hrun as _ <- _. exact Hr. }
  apply IH in Hrun; [exact Hrun |]. rewrite length_app. lia.
Qed.

Lemma read_multi_loop_bounded (tbl : list gatt_db_lookup_table_t) (op : N)
    (length_requested : nat) :
  (forall op0 room h len d, List.length (put_read_multi op0 room h len d) <= room) ->
  forall handles response eh response' eh',
  List.length response <= length_requested ->
  read_multi_loop put_read_multi tbl op length_requested handles response eh
  = RmDone response' eh' ->
  List.length response' <= length_requested.
Proof.
  intros Hput handles. induction handles as [| h hs IH];
    intros resp eh resp' eh' Hr Hrun; simpl in Hrun.
  - injection Hrun as <- _. exact Hr.
  - destruct (ble_gatt_db_find_by_handle tbl h) as [a |]; [| discriminate].
    pose proof (Hput op (length_requested - List.length resp) (handle a)
                  (cur_len a) (p_data a)) as Hb.
    destruct (List.length (put_read_multi op (length_requested - List.length resp)
                (handle a) (cur_len a) (p_data a)) =? 0).
    + injection Hrun as <- _. exact Hr.
    + apply IH in Hrun; [exact Hrun |]. rewrite length_app. lia.
Qed.

Lemma read_by_type_scan_prefix_next_start (tbl : list gatt_db_lookup_table_t)
    (e_handle uuid length_requested : nat) :
  forall pre attr_handle pair_length response ah' pl' response',
  read_by_type_scan_prefix find_handle_by_type put_read_by_type tbl e_handle uuid
    length_requested pre attr_handle pair_length response = Some (ah', pl', response') ->
  ah' = match pre with [] => attr_handle | _ => to_uint16 (last pre 0 + 1) end.
Proof.
  intros pre. induction pre as [| h hs IH]; intros ah pl resp ah' pl' resp' Hs;
    simpl in Hs.
  - injection Hs as <- _ _. reflexivity.
  - destruct ((h =? 0) || negb (find_handle_by_type ah e_handle uuid =? h));
      [discriminate |].
    destruct (ble_gatt_db_find_by_handle tbl h) as [a |]; [| discriminate].
    destruct (put_read_by_type _ _ _ _ _) as [filled pl2].
    destruct (List.length filled =? 0); [discriminate |].
    apply IH in Hs. rewrite Hs. destruct hs; reflexivity.
Qed.

Lemma read_by_type_loop_scan_prefix (tbl : list gatt_db_lookup_table_t)
    (e_handle uuid length_requested h : nat) :
  forall pre fuel attr_handle pair_length response ah' pl' response',
  read_by_type_scan_prefix find_handle_by_type put_read_by_type tbl e_handle uuid
    length_requested pre attr_handle pair_length response = Some (ah', pl', response') ->
  List.length pre < fuel ->
  find_handle_by_type ah' e_handle uuid = h -> h <> 0 ->
  ble_gatt_db_find_by_handle tbl h = None ->
  read_by_type_loop find_handle_by_type put_read_by_type fuel tbl e_handle uuid
    length_requested attr_handle pair_length response = Some (RbtLookupFailed ah').
Proof.
  intros pre. induction pre as [| x hs IH];
    intros fuel ah pl resp ah' pl' resp' Hs Hlen Hf Hnz Hl; simpl in Hs.
  - injection Hs as <- _ _.
    destruct fuel as [| fuel]; [simpl in Hlen; lia |].
    apply (read_by_type_loop_lookup_failed fuel tbl e_handle uuid length_requested
             ah pl h resp); assumption.
  - destruct (Nat.eqb_spec x 0) as [| Hx]; [discriminate |].
    destruct (Nat.eqb_spec (find_handle_by_type ah e_handle uuid) x) as [Ef |];
      [| discriminate].
    simpl in Hs.
    destruct (ble_gatt_db_find_by_handle tbl x) as [a |] eqn:Ea; [| discriminate].
    destruct (put_read_by_type (length_requested - List.length resp) pl x
                (cur_len a) (p_data a)) as [filled pl2] eqn:Ep.
    destruct (List.length filled =? 0) eqn:El; [discriminate |].
    destruct fuel as [| fuel]; [simpl in Hlen; lia |].
    simpl. rewrite Ef.
    destruct (Nat.eqb_spec x 0) as [| _]; [contradiction |].
    rewrite Ea, Ep, El.
    apply (IH fuel _ _ _ ah' pl' resp'); [exact Hs | simpl in Hlen; lia | assumption..].
Qed.

(** Read-by-type: when the type scan, after any number of matches that were
    found in the table and added to the response, yields a handle that is
    not in the table, the handler frees the response buffer, discards the
    data gathered and returns [WICED_BT_GATT_INVALID_HANDLE] with the start
    of that search as error handle: [s_handle] for the first search, the
    previous match plus one (as a [uint16_t]) for a later one; nothing is
    sent. *)
Theorem read_by_type_lookup_failure_frees (conn : nat) (op : N)
    (s_handle e_handle uuid length_requested eh : nat) (pre : list nat)
    (ah' pl' : nat) (response' : list nat) (h : nat) (w : world) :
  malloc_succeeds length_requested = true ->
  read_by_type_scan_prefix find_handle_by_type put_read_by_type (w_tbl w) e_handle
    uuid length_requested pre s_handle 0 [] = Some (ah', pl', response') ->
  List.length pre < 2 ^ 16 ->
  find_handle_by_type ah' e_handle uuid = h -> h <> 0 ->
  ble_gatt_db_find_by_handle (w_tbl w) h = None ->
  ah' = match pre with [] => s_handle | _ => to_uint16 (last pre 0 + 1) end /\
  ble_gatt_request_read_by_type_handler malloc_succeeds find_handle_by_type
    put_read_by_type conn op s_handle e_handle uuid length_requested eh w
  = Ret (WICED_BT_GATT_INVALID_HANDLE, ah')
        (with_events w [EvMalloc length_requested; EvFree]).
Proof.
  intros Hm Hs Hlen Hf Hnz Hl. split.
  { exact (read_by_type_scan_prefix_next_start _ _ _ _ _ _ _ _ _ _ _ Hs). }
  unfold ble_gatt_request_read_by_type_handler, bind, emit, get_tbl, ret.
  rewrite Hm. cbn -[read_by_type_fuel read_by_type_loop].
  rewrite (read_by_type_loop_scan_prefix (w_tbl w) e_handle uuid length_requested h
             pre read_by_type_fuel s_handle 0 [] ah' pl' response')
    by (try assumption; unfold read_by_type_fuel; simpl in Hlen |- *; lia).
  cbn. unfold with_events. rewrite <- app_assoc. reflexivity.
Qed.

(** Read-by-type: if the stack's stream writer never writes more than the
    room it is given, a successful run sends one response of between [1] and
    [length_requested] bytes, with [std::free] as its release callback. *)
Theorem read_by_type_response_bounded (conn : nat) (op : N)
    (s_handle e_handle uuid length_requested eh0 : nat) (w : world)
    (st : gatt_status) (eh : nat) (w' : world) :
  (forall room pl h len d, List.length (fst (put_read_by_type room pl h len d)) <= room) ->
  ble_gatt_request_read_by_type_handler malloc_succeeds find_handle_by_type
    put_read_by_type conn op s_handle e_handle uuid length_requested eh0 w
  = Ret (st, eh) w' ->
  st = WICED_BT_GATT_SUCCESS ->
  exists pair_len d,
    w' = with_events w [EvMalloc length_requested;
                        EvSendReadByTypeRsp conn op pair_len (List.length d) d
                          ReleaseFree] /\
    0 < List.length d <= length_requested.
Proof.
  intros Hput Hrun Hst.
  unfold ble_gatt_request_read_by_type_handler, bind, emit, get_tbl, ret,
    out_of_fuel in Hrun.
  set (fuel := read_by_type_fuel) in Hrun. clearbody fuel.
  destruct (malloc_succeeds length_requested); cbn -[read_by_type_loop] in Hrun.
  2: { injection Hrun as Hs _ _. subst st. discriminate. }
  destruct (read_by_type_loop find_handle_by_type put_read_by_type fuel (w_tbl w)
              e_handle uuid length_requested s_handle 0 [])
    as [[pl resp eh' | eh'] |] eqn:Hl; cbn in Hrun; try discriminate.
  - destruct (Nat.eqb_spec (List.length resp) 0) as [Hz | Hz]; cbn in Hrun.
    + injection Hrun as Hs _ _. subst st. discriminate.
    + injection Hrun as _ _ <-.
      exists pl, resp. split.
      * unfold with_events. rewrite <- app_assoc. reflexivity.
      * split; [lia |].
        apply (read_by_type_loop_bounded (w_tbl w) e_handle uuid length_requested
                 Hput fuel s_handle 0 [] pl resp eh'); [simpl; lia | exact Hl].
  - injection Hrun as Hs _ _. subst st. discriminate.
Qed.

(** Read-multiple: when the handle stream is empty, or the first value is not
    accepted by the stream writer, the handler returns
    [WICED_BT_GATT_INVALID_HANDLE] without freeing the buffer it allocated
    (the trace ends in the allocation, with no [std::free]). *)
Theorem read_multi_empty_response_not_freed (conn : nat) (op : N)
    (stream : list nat) (length_requested : nat) (w : world) :
  malloc_succeeds length_requested = true ->
  (stream = [] \/
   exists h rest a, stream = h :: rest /\
     ble_gatt_db_find_by_handle (w_tbl w) h = Some a /\
     put_read_multi op length_requested (handle a) (cur_len a) (p_data a) = []) ->
  ble_gatt_request_read_multi_handler malloc_succeeds put_read_multi conn op
    stream length_requested w
  = Ret (WICED_BT_GATT_INVALID_HANDLE, nth 0 stream 0)
        (with_events w [EvMalloc length_requested]).
Proof.
  intros Hm Hs.
  unfold ble_gatt_request_read_multi_handler, bind, emit, get_tbl, ret,
    wiced_bt_gatt_get_handle_from_stream.
  rewrite Hm. simpl.
  destruct Hs as [-> | (h & rest & a & -> & Hf & Hp)].
  - reflexivity.
  - simpl. rewrite Hf. rewrite Nat.sub_0_r, Hp. reflexivity.
Qed.

(** Read-multiple: if the stack's stream writer never writes more than the
    room it is given, a successful run sends one response of between [1] and
    [length_requested] bytes, with [std::free] as its release callback. *)
Theorem read_multi_response_bounded (conn : nat) (op : N)
    (stream : list nat) (length_requested : nat) (w : world)
    (st : gatt_status) (eh : nat) (w' : world) :
  (forall op0 room h len d, List.length (put_read_multi op0 room h len d) <= room) ->
  ble_gatt_request_read_multi_handler malloc_succeeds put_read_multi conn op
    stream length_requested w = Ret (st, eh) w' ->
  st = WICED_BT_GATT_SUCCESS ->
  exists d,
    w' = with_events w [EvMalloc length_requested;
                        EvSendReadMultipleRsp conn op (List.length d) d ReleaseFree] /\
    0 < List.length d <= length_requested.
Proof.
  intros Hput Hrun Hst.
  unfold ble_gatt_request_read_multi_handler, bind, emit, get_tbl, ret in Hrun.
  destruct (malloc_succeeds length_requested); simpl in Hrun.
  2: { injection Hrun as Hs _ _. subst st. discriminate. }
  destruct (read_multi_loop put_read_multi (w_tbl w) op length_requested stream []
              (wiced_bt_gatt_get_handle_from_stream stream 0))
    as [resp eh' | eh'] eqn:Hl; simpl in Hrun.
  - destruct (Nat.eqb_spec (List.length resp) 0) as [Hz | Hz]; simpl in Hrun.
    + injection Hrun as Hs _ _. subst st. discriminate.
    + injection Hrun as _ _ <-.
      exists resp. split.
      * unfold with_events. rewrite <- app_assoc. reflexivity.
      * split; [lia |].
        apply (read_multi_loop_bounded (w_tbl w) op length_requested Hput stream []
                 (wiced_bt_gatt_get_handle_from_stream stream 0) resp eh');
          [simpl; lia | exact Hl].
  - injection Hrun as Hs _ _. subst st. discriminate.
Qed.

End MultiReadExtras.

(** ** Further properties: command writes and the OTA write handler *)

Lemma keeps_table_ret {A} (a : A) : keeps_table (ret a).
Proof. intros w w' H. injection H as <-. reflexivity. Qed.

Lemma keeps_table_bind {A B} (m : M A) (k : A -> M B) :
  keeps_table m -> (forall a, keeps_table (k a)) -> keeps_table (bind m k).
Proof.
  intros Hm Hk w w'. unfold bind.
  destruct (m w) as [a w1 | w1 | w1 | w1 |] eqn:E; intros H.
  - rewrite (Hk a w1 w' H). apply (Hm w w1). rewrite E. reflexivity.
  - injection H as <-. apply (Hm w w1). rewrite E. reflexivity.
  - injection H as <-. apply (Hm w w1). rewrite E. reflexivity.
  - injection H as <-. apply (Hm w w1). rewrite E. reflexivity.
  - discriminate.
Qed.

Lemma keeps_table_emit (e : event) : keeps_table (emit e).
Proof. intros w w' H. injection H as <-. reflexivity. Qed.

Lemma keeps_table_get_ctx : keeps_table get_ctx.
Proof. intros w w' H. injection H as <-. reflexivity. Qed.

Lemma keeps_table_put_ctx (c : ble_context) : keeps_table (put_ctx c).
Proof. intros w w' H. injection H as <-. reflexivity. Qed.

Lemma keeps_table_halt {A} : keeps_table (@halt A).
Proof. intros w w' H. injection H as <-. reflexivity. Qed.

Lemma keeps_table_spin {A} : keeps_table (@spin A).
Proof. intros w w' H. injection H as <-. reflexivity. Qed.

Lemma keeps_table_stuck {A} : keeps_table (@stuck A).
Proof. intros w w' H. injection H as <-. reflexivity. Qed.

Create HintDb keeps_table.
#[local] Hint Resolve keeps_table_ret keeps_table_emit keeps_table_get_ctx
  keeps_table_put_ctx keeps_table_halt keeps_table_spin keeps_table_stuck
  : keeps_table.

Ltac keeps_table_step :=
  match goal with
  | |- keeps_table (bind _ _) => apply keeps_table_bind; [| intros ?; cbv beta]
  | |- keeps_table (match ?x with _ => _ end) => destruct x
  | |- keeps_table _ => solve [auto with keeps_table]
  end.

Section WriteExtras.

Variable agent_start : N * nat.
Variable download_prepare : nat -> nat -> nat -> N.
Variable download : nat -> nat -> nat -> N.
Variable download_verify : nat -> nat -> N.
Variable download_write : nat -> option (list nat) -> N.
Variable error_badarg : N.
Variable hdl_cp_cccd hdl_cp_value hdl_data_value : nat.

Local Abbreviation command_write :=
  (ble_gatt_command_write_handler agent_start download_prepare download
     download_verify download_write error_badarg hdl_cp_cccd hdl_cp_value
     hdl_data_value).

(** A write to a handle other than the three OTA handles is exactly a
    [ble_gatt_db_set_value] on the table, with the handle as error handle;
    the context and the trace are untouched. *)
Theorem command_write_non_ota_handle (h : nat) (p_val : option (list nat))
    (val_len : nat) (w : world) :
  h <> hdl_cp_cccd -> h <> hdl_cp_value -> h <> hdl_data_value ->
  command_write h p_val val_len w =
  Ret (fst (ble_gatt_db_set_value (w_tbl w) h p_val val_len), h)
      (mk_world (snd (ble_gatt_db_set_value (w_tbl w) h p_val val_len))
         (w_ctx w) (w_trace w)).
Proof.
  intros H1 H2 H3. apply Nat.eqb_neq in H1, H2, H3.
  unfold ble_gatt_command_write_handler, bind, get_tbl, put_tbl, ret.
  rewrite H1, H2, H3. simpl.
  destruct (ble_gatt_db_set_value (w_tbl w) h p_val val_len). reflexivity.
Qed.

(** A write to one of the three OTA handles never changes the attribute
    table, however the OTA handler ends (returning, stopping, looping or
    reaching undefined behaviour). *)
Theorem ota_write_keeps_attribute_table (h : nat) (p_val : option (list nat))
    (val_len : nat) (w w' : world) :
  h = hdl_cp_cccd \/ h = hdl_cp_value \/ h = hdl_data_value ->
  result_world (command_write h p_val val_len w) = Some w' ->
  w_tbl w' = w_tbl w.
Proof.
  intros Hh. revert w w'. unfold ble_gatt_command_write_handler.
  replace ((h =? hdl_cp_cccd) || (h =? hdl_cp_value) || (h =? hdl_data_value))
    with true
    by (symmetry; destruct Hh as [-> | [-> | ->]]; rewrite Nat.eqb_refl;
        [reflexivity | rewrite orb_true_r; reflexivity | apply orb_true_r]).
  change (keeps_table (ota_agent_write_handler agent_start download_prepare
            download download_verify download_write error_badarg hdl_cp_cccd
            hdl_cp_value hdl_data_value h p_val)).
  unfold ota_agent_write_handler, first_byte, ota_agent_initialize. cbv zeta.
  repeat keeps_table_step.
Qed.

End WriteExtras.

(** ** Further properties: dispatcher *)

Section DispatcherExtras.

Variable malloc_succeeds : nat -> bool.
Variable send_read_handle_rsp : nat -> N -> nat -> option (list nat) -> gatt_status.
Variable find_handle_by_type : nat -> nat -> nat -> nat.
Variable put_read_by_type :
  nat -> nat -> nat -> nat -> option (list nat) -> list nat * nat.
Variable put_read_multi : N -> nat -> nat -> nat -> option (list nat) -> list nat.
Variable send_mtu_rsp : nat -> nat -> nat -> gatt_status.
Variable max_rx_pdu_size : nat.
Variable start_advertisements : N.
Variable agent_start : N * nat.
Variable download_prepare : nat -> nat -> nat -> N.
Variable download : nat -> nat -> nat -> N.
Variable download_verify : nat -> nat -> N.
Variable download_write : nat -> option (list nat) -> N.
Variable get_state : nat -> N.
Variable state_ota_complete : N.
Variable error_badarg : N.
Variable hdl_cp_cccd hdl_cp_value hdl_data_value : nat.

Local Abbreviation callback :=
  (ble_gatt_event_callback malloc_succeeds send_read_handle_rsp
     find_handle_by_type put_read_by_type put_read_multi send_mtu_rsp
     max_rx_pdu_size start_advertisements agent_start download_prepare download
     download_verify download_write get_state state_ota_complete error_badarg
     hdl_cp_cccd hdl_cp_value hdl_data_value).

(** Writes through the callback to a non-OTA handle: the table becomes the
    one [ble_gatt_db_set_value] returns; a successful Write Request is
    acknowledged with a write response, a successful Write Command or Signed
    Write Command with nothing, and any failure, of a request or of a
    command, with an error response naming the handle and the status. *)
Theorem write_opcodes_acknowledgement (conn lreq : nat) (op : N) (h : nat)
    (p_val : option (list nat)) (val_len : nat) (w : world) :
  op = GATT_REQ_WRITE \/ op = GATT_CMD_WRITE \/ op = GATT_CMD_SIGNED_WRITE ->
  h <> hdl_cp_cccd -> h <> hdl_cp_value -> h <> hdl_data_value ->
  let st := fst (ble_gatt_db_set_value (w_tbl w) h p_val val_len) in
  callback (GATT_ATTRIBUTE_REQUEST_EVT
              (mk_request conn op lreq (WriteReq h p_val val_len))) w
  = Ret st (mk_world (snd (ble_gatt_db_set_value (w_tbl w) h p_val val_len))
              (w_ctx w)
              (w_trace w ++
               if (st =? WICED_BT_GATT_SUCCESS)%N then
                 if (op =? GATT_REQ_WRITE)%N then [EvSendWriteRsp conn op h]
                 else []
               else [EvSendErrorRsp conn op h st])).
Proof.
  intros Hop H1 H2 H3 st. subst st.
  apply Nat.eqb_neq in H1, H2, H3.
  unfold ble_gatt_event_callback, ble_gatt_event_handler,
    ble_gatt_command_write_handler, bind, ret, emit, get_tbl, put_tbl.
  destruct (ble_gatt_db_set_value (w_tbl w) h p_val val_len) as [st tbl'] eqn:Hs.
  simpl fst; simpl snd.
  destruct Hop as [-> | [-> | ->]]; cbn -[ble_gatt_db_set_value];
    rewrite H1, H2, H3; cbn -[ble_gatt_db_set_value]; rewrite Hs; cbn;
    destruct (st =? WICED_BT_GATT_SUCCESS)%N eqn:E; cbn; rewrite ?E; cbn;
    rewrite ?app_nil_r; reflexivity.
Qed.

(** Prepare Write requests and notifications are answered with success and
    change nothing (the queued value is dropped); an Execute Write request
    only sends the execute-write response. *)
Theorem queued_write_requests_ignored (conn lreq : nat) (d : request_data)
    (w : world) :
  callback (GATT_ATTRIBUTE_REQUEST_EVT
              (mk_request conn GATT_REQ_PREPARE_WRITE lreq d)) w
  = Ret WICED_BT_GATT_SUCCESS w /\
  callback (GATT_ATTRIBUTE_REQUEST_EVT
              (mk_request conn GATT_HANDLE_VALUE_NOTIF lreq d)) w
  = Ret WICED_BT_GATT_SUCCESS w /\
  callback (GATT_ATTRIBUTE_REQUEST_EVT
              (mk_request conn GATT_REQ_EXECUTE_WRITE lreq d)) w
  = Ret WICED_BT_GATT_SUCCESS
        (with_events w [EvSendExecuteWriteRsp conn GATT_REQ_EXECUTE_WRITE]).
Proof.
  unfold ble_gatt_event_callback, ble_gatt_event_handler, bind, ret, emit.
  repeat split; reflexivity.
Qed.

(** An MTU exchange request is answered with the server's
    [BLE_MAX_RX_PDU_SIZE]; the callback returns the status of that call and
    sends an error response (with handle [0]) exactly when it fails. *)
Theorem mtu_request_response (conn lreq mtu : nat) (w : world) :
  let st := send_mtu_rsp conn mtu max_rx_pdu_size in
  callback (GATT_ATTRIBUTE_REQUEST_EVT
              (mk_request conn GATT_REQ_MTU lreq (RemoteMtu mtu))) w
  = Ret st (with_events w
              (EvSendMtuRsp conn mtu max_rx_pdu_size ::
               if (st =? WICED_BT_GATT_SUCCESS)%N then []
               else [EvSendErrorRsp conn GATT_REQ_MTU 0 st])).
Proof.
  intros st. subst st.
  unfold ble_gatt_event_callback, ble_gatt_event_handler, bind, ret, emit,
    with_events.
  cbn. destruct (send_mtu_rsp conn mtu max_rx_pdu_size =? WICED_BT_GATT_SUCCESS)%N;
    cbn; rewrite <- ?app_assoc; reflexivity.
Qed.

End DispatcherExtras.

(** ** Further properties: connection state machine *)

Section ConnectionExtras.

Variable start_advertisements : N.

(** A [nullptr] connection status is refused with [WICED_BT_GATT_ERROR] and
    changes nothing.  A connection event stores the connection id, the first
    six bytes of the peer address and the state [connected], turns the LED
    fully on and returns success, without any advertising call; [connected()]
    then holds exactly when the new connection id is nonzero. *)
Theorem connection_event_null_and_connect (cs : connection_status) (w : world) :
  connection_event_handler start_advertisements None w
  = Ret WICED_BT_GATT_ERROR w /\
  (cs_connected cs = true ->
   let ctx' := set_connection_state
                 (set_peer_address (set_connection_id (w_ctx w) (cs_conn_id cs))
                    (firstn 6 (cs_bd_addr cs))) connected in
   connection_event_handler start_advertisements (Some cs) w
   = Ret WICED_BT_GATT_SUCCESS
       (mk_world (w_tbl w) ctx'
          (w_trace w ++ [EvLedStop; EvLedSetBlinkRate duty_on; EvLedStart])) /\
   ble_context_connected ctx' = negb (cs_conn_id cs =? 0)).
Proof.
  split; [reflexivity |].
  intros Hc ctx'. split.
  - unfold connection_event_handler, update_advertising_led, bind, ret, emit,
      get_ctx, put_ctx.
    rewrite Hc. simpl. rewrite <- !app_assoc. reflexivity.
  - subst ctx'. unfold ble_context_connected. simpl.
    destruct (cs_conn_id cs); reflexivity.
Qed.

(** A connection followed by a disconnection (with advertising restarted by
    the stack) ends with connection id [0], the state
    [disconnected_and_advertising], the LED blinking, [connected()] false,
    and the peer address of the first connection still stored. *)
Theorem connect_then_disconnect (cs1 cs2 : connection_status) (w : world) :
  cs_connected cs1 = true -> cs_connected cs2 = false ->
  start_advertisements = WICED_BT_SUCCESS ->
  exists ctx'',
    bind (connection_event_handler start_advertisements (Some cs1))
      (fun _ => connection_event_handler start_advertisements (Some cs2)) w
    = Ret WICED_BT_GATT_SUCCESS
        (mk_world (w_tbl w) ctx''
           (w_trace w ++ [EvLedStop; EvLedSetBlinkRate duty_on; EvLedStart;
                          EvStartAdvertisements; EvLedStop;
                          EvLedSetBlinkRate duty_blinking; EvLedStart])) /\
    m_connection_id ctx'' = 0 /\
    m_connection_state ctx'' = disconnected_and_advertising /\
    ble_context_connected ctx'' = false /\
    m_peer_address ctx'' = firstn 6 (cs_bd_addr cs1) /\
    m_tag ctx'' = m_tag (w_ctx w).
Proof.
  intros H1 H2 Hs.
  unfold connection_event_handler, update_advertising_led, cy_assert, bind, ret,
    emit, get_ctx, put_ctx.
  rewrite H1, H2, Hs. simpl.
  eexists. split; [rewrite <- !app_assoc; reflexivity |].
  repeat split.
Qed.

End ConnectionExtras.

(** ** Further properties: stack management callback *)

Section ManagementExtras.

Variable WICED_BT_ERROR : N.
Variable stack_init gatt_db_init start_advertisements : N.
Variable io_cap_none oob_none auth_bond auth_mitm key_penc key_pid : N.

Local Abbreviation management_callback :=
  (stack_management_callback WICED_BT_ERROR gatt_db_init start_advertisements
     io_cap_none oob_none auth_bond auth_mitm key_penc key_pid).

(** [stack_initialize] always resets the context to its defaults first:
    the tag becomes valid (so the OTA agent's tag check passes later), the
    connection id 0 and the state disconnected and not advertising, so that
    [connected()] is false; a successful stack initialisation is returned,
    any other result stops the program at the assertion. *)
Theorem stack_initialize_resets_context (w : world) :
  let c := default_value_initialize (w_ctx w) in
  let w' := mk_world (w_tbl w) c (w_trace w) in
  (stack_init = WICED_BT_SUCCESS -> stack_initialize stack_init w = Ret WICED_BT_SUCCESS w') /\
  (stack_init <> WICED_BT_SUCCESS -> stack_initialize stack_init w = Halt w') /\
  m_tag c = OTA_APP_TAG_VALID /\ m_connection_state c = disconnected_not_advertising /\
  ble_context_connected c = false.
Proof.
  intros c w'. unfold stack_initialize, cy_assert, bind, ret, halt, get_ctx, put_ctx.
  repeat split; cbn.
  - intros ->. reflexivity.
  - intros Hne. destruct (N.eqb_spec stack_init WICED_BT_SUCCESS); [contradiction | reflexivity].
Qed.

(** An advertising-state change sets the state from the new mode and the
    connection id and shows it on the LED: blinking whenever advertising is
    on (even with a connection id set), fully on when advertising is off and
    [connected()] holds, off otherwise. *)
Theorem advert_state_changed_led (mode : N) (w : world) :
  let s := if (mode =? BTM_BLE_ADVERT_OFF)%N then
             if m_connection_id (w_ctx w) =? 0 then disconnected_not_advertising
             else connected
           else disconnected_and_advertising in
  let duty := if (mode =? BTM_BLE_ADVERT_OFF)%N then
                if ble_context_connected (w_ctx w) then duty_on else duty_off
              else duty_blinking in
  management_callback
    (BTM_BLE_ADVERT_STATE_CHANGED_EVT mode) w
  = Ret WICED_BT_SUCCESS
      (mk_world (w_tbl w) (set_connection_state (w_ctx w) s)
         (w_trace w ++ [EvLedStop; EvLedSetBlinkRate duty; EvLedStart])).
Proof.
  intros s duty. subst s duty.
  unfold stack_management_callback, set_advertising_mode, update_advertising_led,
    ble_context_connected, bind, ret, emit, get_ctx, put_ctx.
  simpl. rewrite <- !app_assoc.
  destruct (mode =? BTM_BLE_ADVERT_OFF)%N; [| reflexivity].
  destruct (m_connection_id (w_ctx w)); reflexivity.
Qed.

(** The management events other than [BTM_ENABLED_EVT] and
    [BTM_BLE_ADVERT_STATE_CHANGED_EVT]: a user confirmation request is
    accepted with [wiced_bt_dev_confirm_req_reply] and a security request
    with [wiced_bt_ble_security_grant], both for the peer's address; an IO
    capabilities request is answered with no IO capabilities, no OOB data,
    bonding with MITM protection, 16-byte keys and the encryption and
    identity keys distributed both ways; these three return success.  The
    two key requests and the events without a case return [WICED_BT_ERROR],
    the remaining events success, and these change nothing. *)
Theorem management_events_without_effect (ev : management_evt) (w : world)
    (bd_addr : list nat) :
  management_callback (BTM_USER_CONFIRMATION_REQUEST_EVT bd_addr) w
  = Ret WICED_BT_SUCCESS
      (with_events w [EvDevConfirmReqReply WICED_BT_SUCCESS bd_addr]) /\
  management_callback (BTM_SECURITY_REQUEST_EVT bd_addr) w
  = Ret WICED_BT_SUCCESS (with_events w [EvBleSecurityGrant bd_addr WICED_BT_SUCCESS]) /\
  management_callback BTM_PAIRING_IO_CAPABILITIES_BLE_REQUEST_EVT w
  = Ret WICED_BT_SUCCESS
      (with_events w [EvPairingIoCapabilitiesReply io_cap_none oob_none
                        (N.lor auth_bond auth_mitm) 16 (N.lor key_penc key_pid)
                        (N.lor key_penc key_pid)]) /\
  (In ev [BTM_LOCAL_IDENTITY_KEYS_REQUEST_EVT;
          BTM_PAIRED_DEVICE_LINK_KEYS_REQUEST_EVT; BTM_OTHER_MANAGEMENT_EVT] ->
   management_callback ev w = Ret WICED_BT_ERROR w) /\
  (In ev [BTM_PASSKEY_NOTIFICATION_EVT; BTM_PAIRING_COMPLETE_EVT;
          BTM_LOCAL_IDENTITY_KEYS_UPDATE_EVT; BTM_PAIRED_DEVICE_LINK_KEYS_UPDATE_EVT;
          BTM_ENCRYPTION_STATUS_EVT; BTM_BLE_CONNECTION_PARAM_UPDATE] ->
   management_callback ev w = Ret WICED_BT_SUCCESS w).
Proof.
  unfold stack_management_callback, bind, emit, ret, with_events.
  split; [reflexivity | split; [reflexivity | split; [reflexivity | split]]];
    intros H; repeat (destruct H as [<- | H]; [reflexivity |]); contradiction.
Qed.

(** [BTM_ENABLED_EVT]: a failed enable is answered with [WICED_BT_ERROR] and
    changes nothing; a successful one starts advertising once, and returns
    success when the stack accepts both the database and the advertising, and
    stops in [CY_ASSERT(false)] otherwise. *)
Theorem management_enabled_event (status : N) (w : world) :
  (status <> WICED_BT_SUCCESS ->
   management_callback
     (BTM_ENABLED_EVT status) w = Ret WICED_BT_ERROR w) /\
  (status = WICED_BT_SUCCESS -> start_advertisements = WICED_BT_SUCCESS ->
   gatt_db_init = WICED_BT_SUCCESS ->
   management_callback
     (BTM_ENABLED_EVT status) w
   = Ret WICED_BT_SUCCESS (with_events w [EvStartAdvertisements])) /\
  (status = WICED_BT_SUCCESS ->
   (start_advertisements <> WICED_BT_SUCCESS \/ gatt_db_init <> WICED_BT_SUCCESS) ->
   management_callback
     (BTM_ENABLED_EVT status) w
   = Halt (with_events w [EvStartAdvertisements])).
Proof.
  unfold stack_management_callback, ble_start_advertising, cy_assert, bind, ret,
    emit, halt, with_events.
  split; [| split].
  - intros Hs. destruct (N.eqb_spec status WICED_BT_SUCCESS); [contradiction |].
    reflexivity.
  - intros -> -> ->. reflexivity.
  - intros -> [Ha | Hd]; rewrite N.eqb_refl.
    + destruct (N.eqb_spec start_advertisements WICED_BT_SUCCESS);
        [contradiction | reflexivity].
    + destruct (N.eqb_spec start_advertisements WICED_BT_SUCCESS); [| reflexivity].
      destruct (N.eqb_spec gatt_db_init WICED_BT_SUCCESS); [contradiction |].
      reflexivity.
Qed.

End ManagementExtras.

(** ** Further properties: OTA agent *)

Section OtaExtras.

Variable agent_start : N * nat.
Variable download_prepare : nat -> nat -> nat -> N.
Variable download : nat -> nat -> nat -> N.
Variable download_verify : nat -> nat -> N.
Variable download_write : nat -> option (list nat) -> N.
Variable get_state : nat -> N.
Variable state_ota_complete : N.
Variable error_badarg : N.
Variable hdl_cp_cccd hdl_cp_value hdl_data_value : nat.

Local Abbreviation ota_write :=
  (ota_agent_write_handler agent_start download_prepare download download_verify
     download_write error_badarg hdl_cp_cccd hdl_cp_value hdl_data_value).

(** A write to the control point's CCCD stores its first byte as the OTA
    configuration descriptor and returns success without calling the OTA
    library; an empty or missing value is read out of bounds. *)
Theorem ota_cccd_write_stores_descriptor (b : nat) (rest : list nat) (w : world) :
  ota_write hdl_cp_cccd (Some (b :: rest)) w
  = Ret (WICED_BT_GATT_SUCCESS, hdl_cp_cccd)
        (mk_world (w_tbl w) (set_ota_config_descriptor (w_ctx w) b) (w_trace w)) /\
  ota_write hdl_cp_cccd (Some []) w = Stuck w /\
  ota_write hdl_cp_cccd None w = Stuck w.
Proof.
  unfold ota_agent_write_handler, first_byte, bind, ret, get_ctx, put_ctx, stuck.
  rewrite Nat.eqb_refl. repeat split.
Qed.

(** The abort command always succeeds (it only notifies the OTA library);
    any control-point command other than prepare, download, verify and abort,
    and any handle other than the three OTA handles, is answered with
    [WICED_BT_GATT_REQ_NOT_SUPPORTED] and changes nothing. *)
Theorem ota_abort_and_unknown_command (cmd h : nat) (rest : list nat)
    (p_val : option (list nat)) (w : world) :
  hdl_cp_value <> hdl_cp_cccd ->
  ota_write hdl_cp_value (Some (CY_OTA_UPGRADE_COMMAND_ABORT :: rest)) w
  = Ret (WICED_BT_GATT_SUCCESS, hdl_cp_value) (with_events w [EvOtaDownloadAbort]) /\
  (~ In cmd [CY_OTA_UPGRADE_COMMAND_PREPARE_DOWNLOAD; CY_OTA_UPGRADE_COMMAND_DOWNLOAD;
             CY_OTA_UPGRADE_COMMAND_VERIFY; CY_OTA_UPGRADE_COMMAND_ABORT] ->
   ota_write hdl_cp_value (Some (cmd :: rest)) w
   = Ret (WICED_BT_GATT_REQ_NOT_SUPPORTED, hdl_cp_value) w) /\
  (h <> hdl_cp_cccd -> h <> hdl_cp_value -> h <> hdl_data_value ->
   ota_write h p_val w = Ret (WICED_BT_GATT_REQ_NOT_SUPPORTED, h) w).
Proof.
  intros Hne. apply Nat.eqb_neq in Hne.
  unfold ota_agent_write_handler, first_byte, bind, ret, emit, with_events.
  split; [| split].
  - rewrite Hne, Nat.eqb_refl. reflexivity.
  - intros Hin. rewrite Hne, Nat.eqb_refl.
    assert (H1 : cmd <> 1) by (intros ->; apply Hin; simpl; auto).
    assert (H2 : cmd <> 2) by (intros ->; apply Hin; simpl; auto).
    assert (H3 : cmd <> 3) by (intros ->; apply Hin; simpl; auto).
    assert (H7 : cmd <> 7) by (intros ->; apply Hin; simpl; auto 6).
    apply Nat.eqb_neq in H1, H2, H3, H7.
    unfold CY_OTA_UPGRADE_COMMAND_PREPARE_DOWNLOAD, CY_OTA_UPGRADE_COMMAND_DOWNLOAD,
      CY_OTA_UPGRADE_COMMAND_VERIFY, CY_OTA_UPGRADE_COMMAND_ABORT.
    rewrite H1, H2, H3, H7. reflexivity.
  - intros H1 H2 H3. apply Nat.eqb_neq in H1, H2, H3.
    rewrite H1, H2, H3. reflexivity.
Qed.

(** A prepare-download command with a valid tag (re)starts the OTA agent:
    the OTA values are re-initialised, so the configuration descriptor
    handed to [cy_ota_ble_download_prepare] is [0] whatever the client wrote
    to the CCCD before, and reboot-at-end is set; if the agent fails to start
    the handler never returns; otherwise the status is that of the prepare
    call. *)
Theorem ota_prepare_valid_tag (rest : list nat) (w : world) :
  hdl_cp_value <> hdl_cp_cccd -> m_tag (w_ctx w) = OTA_APP_TAG_VALID ->
  let ctx1 := set_ota_context (ota_value_initialize (w_ctx w)) (snd agent_start) in
  m_ota_config_descriptor ctx1 = 0 /\ m_reboot_at_end ctx1 = true /\
  (fst agent_start <> CY_RSLT_SUCCESS ->
   ota_write hdl_cp_value (Some (CY_OTA_UPGRADE_COMMAND_PREPARE_DOWNLOAD :: rest)) w
   = Spin (mk_world (w_tbl w) ctx1 (w_trace w ++ [EvOtaAgentStart]))) /\
  (fst agent_start = CY_RSLT_SUCCESS ->
   ota_write hdl_cp_value (Some (CY_OTA_UPGRADE_COMMAND_PREPARE_DOWNLOAD :: rest)) w
   = Ret ((if (download_prepare (snd agent_start) (m_connection_id (w_ctx w)) 0
                 =? CY_RSLT_SUCCESS)%N
           then WICED_BT_GATT_SUCCESS else WICED_BT_GATT_ERROR), hdl_cp_value)
         (mk_world (w_tbl w) ctx1
            (w_trace w ++ [EvOtaAgentStart; EvOtaDownloadPrepare]))).
Proof.
  intros Hne Htag. cbv zeta. split; [reflexivity |]. split; [reflexivity |].
  apply Nat.eqb_neq in Hne.
  unfold ota_agent_write_handler, first_byte, ota_agent_initialize, bind, ret,
    emit, get_ctx, put_ctx, spin.
  rewrite Hne, Nat.eqb_refl. simpl. rewrite Htag. simpl.
  destruct agent_start as [r oc]. simpl. split.
  - intros Hr. destruct (N.eqb_spec r CY_RSLT_SUCCESS); [contradiction |].
    reflexivity.
  - intros ->. simpl. rewrite <- app_assoc.
    destruct (download_prepare oc (m_connection_id (w_ctx w)) 0 =? CY_RSLT_SUCCESS)%N;
      reflexivity.
Qed.

(** A successful prepare-download followed by the confirmation of an
    indication reboots the device exactly when the OTA library reports the
    update complete (reboot-at-end having been set by the prepare);
    otherwise the agent is stopped. *)
Theorem ota_prepare_then_confirmation (rest : list nat) (w : world) :
  hdl_cp_value <> hdl_cp_cccd -> m_tag (w_ctx w) = OTA_APP_TAG_VALID ->
  fst agent_start = CY_RSLT_SUCCESS ->
  download_prepare (snd agent_start) (m_connection_id (w_ctx w)) 0 = CY_RSLT_SUCCESS ->
  exists w1,
    ota_write hdl_cp_value (Some (CY_OTA_UPGRADE_COMMAND_PREPARE_DOWNLOAD :: rest)) w
    = Ret (WICED_BT_GATT_SUCCESS, hdl_cp_value) w1 /\
    ota_agent_confirmation_handler get_state state_ota_complete w1
    = if (get_state (snd agent_start) =? state_ota_complete)%N
      then Halt (with_events w1 [EvOtaGetState; EvDelayMs 1000; EvSystemReset])
      else Ret tt (with_events w1 [EvOtaGetState; EvOtaAgentStop]).
Proof.
  intros Hne Htag Hs Hp. apply Nat.eqb_neq in Hne.
  unfold ota_agent_write_handler, first_byte, ota_agent_initialize, bind, ret,
    emit, get_ctx, put_ctx, spin.
  rewrite Hne, Nat.eqb_refl. simpl. rewrite Htag. simpl.
  destruct agent_start as [r oc]. simpl in Hs, Hp |- *. subst r. simpl.
  rewrite Hp. simpl.
  eexists. split; [reflexivity |].
  unfold ota_agent_confirmation_handler, bind, emit, get_ctx, halt, with_events.
  simpl. destruct (get_state oc =? state_ota_complete)%N; simpl;
    rewrite <- ?app_assoc; reflexivity.
Qed.

(** The download and verify commands and the data writes return success
    exactly when the OTA library call returns [CY_RSLT_SUCCESS], and
    [WICED_BT_GATT_ERROR] otherwise, after one call of the library. *)
Theorem ota_transfer_commands_status (rest : list nat) (p_val : option (list nat))
    (w : world) :
  hdl_cp_value <> hdl_cp_cccd -> hdl_data_value <> hdl_cp_cccd ->
  hdl_data_value <> hdl_cp_value ->
  let c := w_ctx w in
  ota_write hdl_cp_value (Some (CY_OTA_UPGRADE_COMMAND_DOWNLOAD :: rest)) w
  = Ret ((if (download (m_ota_context c) (m_connection_id c)
                (m_ota_config_descriptor c) =? CY_RSLT_SUCCESS)%N
          then WICED_BT_GATT_SUCCESS else WICED_BT_GATT_ERROR), hdl_cp_value)
        (with_events w [EvOtaDownload]) /\
  ota_write hdl_cp_value (Some (CY_OTA_UPGRADE_COMMAND_VERIFY :: rest)) w
  = Ret ((if (download_verify (m_ota_context c) (m_connection_id c)
                =? CY_RSLT_SUCCESS)%N
          then WICED_BT_GATT_SUCCESS else WICED_BT_GATT_ERROR), hdl_cp_value)
        (with_events w [EvOtaDownloadVerify]) /\
  ota_write hdl_data_value p_val w
  = Ret ((if (download_write (m_ota_context c) p_val =? CY_RSLT_SUCCESS)%N
          then WICED_BT_GATT_SUCCESS else WICED_BT_GATT_ERROR), hdl_data_value)
        (with_events w [EvOtaDownloadWrite]).
Proof.
  intros H1 H2 H3. cbv zeta. apply Nat.eqb_neq in H1, H2, H3.
  unfold ota_agent_write_handler, first_byte, bind, ret, emit, get_ctx,
    with_events.
  rewrite H1, H2, H3, !Nat.eqb_refl. simpl.
  split; [| split];
    match goal with
    | |- context [if ?c then _ else _] => destruct c
    end; reflexivity.
Qed.

End OtaExtras.

(** ** Further properties: battery service *)

Lemma battery_even_step (level : Z) :
  (0 <= level <= 100)%Z -> Z.even level = true ->
  (0 <= battery_service_update_percentage level BATTERY_LEVEL_CHANGE <= 100)%Z /\
  Z.even (battery_service_update_percentage level BATTERY_LEVEL_CHANGE) = true.
Proof.
  intros Hr Hev. unfold battery_service_update_percentage, BATTERY_LEVEL_CHANGE.
  destruct (Z.eqb_spec level 0) as [H0 | H0]; [split; [lia | reflexivity] |].
  assert (H2 : (2 <= level)%Z).
  { destruct (Z.le_gt_cases 2 level) as [| Hl]; [assumption |].
    assert (level = 1)%Z by lia. subst level. discriminate. }
  rewrite Z.mod_small by lia. split; [lia |].
  rewrite Z.even_sub, Hev. reflexivity.
Qed.

Lemma battery_odd_step (level : Z) :
  (0 <= level <= 255)%Z -> Z.odd level = true ->
  (0 <= battery_service_update_percentage level BATTERY_LEVEL_CHANGE <= 255)%Z /\
  Z.odd (battery_service_update_percentage level BATTERY_LEVEL_CHANGE) = true.
Proof.
  intros Hr Hodd. unfold battery_service_update_percentage, BATTERY_LEVEL_CHANGE.
  destruct (Z.eqb_spec level 0) as [H0 | H0]; [subst level; discriminate |].
  pose proof (Z.mod_pos_bound (level - 2) 256 ltac:(lia)) as Hb.
  split; [lia |].
  rewrite (Z.mod_eq (level - 2) 256) by lia.
  rewrite Z.odd_sub, Z.odd_mul, Z.odd_sub, Hodd. reflexivity.
Qed.

Lemma battery_even_cycle_table :
  forallb (fun k => (battery_levels_after 51 (2 * Z.of_nat k) =? 2 * Z.of_nat k)%Z)
    (seq 0 51) = true.
Proof. vm_compute. reflexivity. Qed.

(** Over a sequence of timer notifications, the battery level is updated and
    one notification is sent exactly for the notifications that find a
    connection with notifications enabled; the others change nothing. *)
Theorem battery_task_run_counts (ticks : list (nat * Z)) (level : Z) (hdl : nat) :
  fst (battery_service_task_run ticks level hdl)
    = battery_levels_after (List.length (filter battery_tick_notifies ticks)) level /\
  List.length (snd (battery_service_task_run ticks level hdl))
    = List.length (filter battery_tick_notifies ticks).
Proof.
  revert level. induction ticks as [| [conn c0] rest IH]; intros level.
  - split; reflexivity.
  - simpl. unfold battery_service_task_tick.
    destruct (conn =? 0); simpl.
    + specialize (IH level).
      destruct (battery_service_task_run rest level hdl) as [l2 e2]. exact IH.
    + destruct (Z.land c0 GATT_CLIENT_CONFIG_NOTIFICATION =? 0)%Z; simpl.
      * specialize (IH level).
        destruct (battery_service_task_run rest level hdl) as [l2 e2]. exact IH.
      * specialize (IH (battery_service_update_percentage level BATTERY_LEVEL_CHANGE)).
        destruct (battery_service_task_run rest
                    (battery_service_update_percentage level BATTERY_LEVEL_CHANGE) hdl)
          as [l2 e2].
        simpl in *. destruct IH as [IH1 IH2]. split.
        -- rewrite IH1. unfold battery_levels_after.
           exact (eq_sym (Nat.iter_succ_r _ _ _ _)).
        -- rewrite IH2. reflexivity.
Qed.

(** From an even level in [0, 100] the level stays an even value in
    [0, 100] forever, and returns to its start after [51] updates. *)
Theorem battery_even_levels_cycle (level : Z) :
  (0 <= level <= 100)%Z -> Z.even level = true ->
  battery_levels_after 51 level = level /\
  forall n, (0 <= battery_levels_after n level <= 100)%Z /\
            Z.even (battery_levels_after n level) = true.
Proof.
  intros Hr Hev. split.
  - apply Z.even_spec in Hev. destruct Hev as [m ->].
    assert (Hm : (0 <= m <= 50)%Z) by lia.
    pose proof battery_even_cycle_table as Ht.
    rewrite forallb_forall in Ht.
    specialize (Ht (Z.to_nat m)). rewrite Z2Nat.id in Ht by lia.
    apply Z.eqb_eq. apply Ht. apply in_seq. lia.
  - intros n. induction n as [| n IH]; [simpl; split; [lia | exact Hev] |].
    destruct IH as [IH1 IH2]. unfold battery_levels_after in *. simpl.
    apply battery_even_step; assumption.
Qed.

(** From an odd level in [0, 255] (e.g. [1], left by the unsigned
    wrap-around) the level stays odd for ever: it never reaches [0], so it is
    never reset to [100], and wraps around through [255] instead. *)
Theorem battery_odd_levels_never_reset (level : Z) :
  (0 <= level <= 255)%Z -> Z.odd level = true ->
  forall n, (0 <= battery_levels_after n level <= 255)%Z /\
            Z.odd (battery_levels_after n level) = true /\
            battery_levels_after n level <> 100%Z.
Proof.
  intros Hr Hodd n.
  assert (H : (0 <= battery_levels_after n level <= 255)%Z /\
              Z.odd (battery_levels_after n level) = true).
  { induction n as [| n IH]; [split; assumption |].
    destruct IH as [IH1 IH2]. unfold battery_levels_after in *. simpl.
    apply battery_odd_step; assumption. }
  destruct H as [H1 H2]. split; [exact H1 | split; [exact H2 |]].
  intros Heq. rewrite Heq in H2. discriminate.
Qed.

(** ** Concrete instances of the properties above *)

Lemma put_read_by_type_rsp_model_bounded (room pl h len : nat) (d : option (list nat)) :
  length (fst (put_read_by_type_rsp_model room pl h len d)) <= room.
Proof.
  unfold put_read_by_type_rsp_model.
  destruct (_ <=? room) eqn:E; simpl; [apply Nat.leb_le; exact E | lia].
Qed.

Lemma put_read_multi_rsp_model_bounded (op : N) (room h len : nat) (d : option (list nat)) :
  length (put_read_multi_rsp_model op room h len d) <= room.
Proof.
  unfold put_read_multi_rsp_model.
  destruct (_ <=? room) eqn:E; simpl; [apply Nat.leb_le; exact E | lia].
Qed.

Lemma set_value_unknown_handle_witness :
  ble_gatt_db_set_value sample_table 4 (Some [1; 2]) 2
  = (WICED_BT_GATT_INVALID_HANDLE, sample_table).
Proof.
  apply (set_value_unknown_handle sample_table 4 2 (Some [1; 2]));
    [reflexivity | right; discriminate].
Defined.

Lemma set_value_null_value_rejected_witness :
  ble_gatt_db_set_value sample_table 3 None 2
  = (WICED_BT_GATT_INVALID_PDU, sample_table).
Proof.
  apply (set_value_null_value_rejected sample_table 3 2); lia.
Defined.

Lemma set_value_status_first_match_witness :
  fst (ble_gatt_db_set_value sample_table 3 (Some [1; 2]) 2) = WICED_BT_GATT_SUCCESS /\
  fst (ble_gatt_db_set_value sample_table 5 (Some [1; 2]) 2)
  = WICED_BT_GATT_INVALID_ATTR_LEN /\
  fst (ble_gatt_db_set_value sample_table 3 None 2) = WICED_BT_GATT_INVALID_PDU.
Proof.
  split; [| split].
  - rewrite (set_value_status_first_match sample_table 3 2 (Some [1; 2])
               (mk_entry 3 4 2 (Some [7; 8; 0; 0]))); reflexivity.
  - rewrite (set_value_status_first_match sample_table 5 2 (Some [1; 2])
               (mk_entry 5 1 1 (Some [42]))); reflexivity.
  - rewrite (set_value_status_first_match sample_table 3 2 None
               (mk_entry 3 4 2 (Some [7; 8; 0; 0]))); reflexivity.
Defined.

Lemma set_value_preserves_table_invariants_witness :
  table_ok (snd (ble_gatt_db_set_value sample_table 3 (Some [1; 2]) 2)) = true /\
  table_len_ok (snd (ble_gatt_db_set_value sample_table 3 (Some [1; 2]) 2)) = true.
Proof.
  pose proof (set_value_preserves_table_invariants sample_table
                (snd (ble_gatt_db_set_value sample_table 3 (Some [1; 2]) 2)) 3 2
                (Some [1; 2]) (fst (ble_gatt_db_set_value sample_table 3 (Some [1; 2]) 2))
                eq_refl eq_refl (le_n 2) eq_refl) as (_ & _ & H1 & H2).
  split; assumption.
Defined.

Lemma write_then_read_round_trip_witness :
  ble_gatt_request_read_handler (fun _ _ _ _ => WICED_BT_GATT_SUCCESS) 7 GATT_REQ_READ 3 0 10
    (mk_world (snd (ble_gatt_db_set_value sample_table 3 (Some [1; 2]) 2))
       (w_ctx sample_world) [])
  = Ret (WICED_BT_GATT_SUCCESS, 3)
      (mk_world (snd (ble_gatt_db_set_value sample_table 3 (Some [1; 2]) 2))
         (w_ctx sample_world)
         ([] ++ [EvSendReadHandleRsp 7 GATT_REQ_READ 2 (Some (firstn 2 [1; 2]))])).
Proof.
  apply (write_then_read_round_trip (fun _ _ _ _ => WICED_BT_GATT_SUCCESS) sample_table
           (snd (ble_gatt_db_set_value sample_table 3 (Some [1; 2]) 2)) 3 2 10 7
           GATT_REQ_READ [1; 2] (w_ctx sample_world) []);
    [reflexivity | lia | simpl; lia | lia | reflexivity].
Defined.

Lemma read_handler_unknown_handle_witness :
  ble_gatt_request_read_handler (fun _ _ _ _ => WICED_BT_GATT_SUCCESS) 7 GATT_REQ_READ 4 0 10
    sample_world
  = Ret (WICED_BT_GATT_INVALID_HANDLE, 4) sample_world.
Proof.
  apply (read_handler_unknown_handle (fun _ _ _ _ => WICED_BT_GATT_SUCCESS) sample_world 7
           GATT_REQ_READ 4 0 10).
  reflexivity.
Defined.

Lemma read_by_type_lookup_failure_frees_witness :
  ble_gatt_request_read_by_type_handler (fun _ => true)
    (fun s _ _ => if s <=? 1 then 1 else if s <=? 5 then 5 else 0)
    put_read_by_type_rsp_model 7 GATT_REQ_READ_BY_TYPE 1 9 0x2A19 10 0 multi_world
  = Ret (WICED_BT_GATT_INVALID_HANDLE, 2) (with_events multi_world [EvMalloc 10; EvFree]).
Proof.
  assert (Hlen : List.length [1] < 2 ^ 16).
  { change (2 ^ 0 < 2 ^ 16). apply Nat.pow_lt_mono_r; lia. }
  destruct (read_by_type_lookup_failure_frees (fun _ => true)
              (fun s _ _ => if s <=? 1 then 1 else if s <=? 5 then 5 else 0)
              put_read_by_type_rsp_model 7 GATT_REQ_READ_BY_TYPE 1 9 0x2A19 10 0 [1]
              2 5 [1; 0; 1; 2; 3] 5 multi_world eq_refl
              ltac:(vm_compute; reflexivity) Hlen eq_refl ltac:(discriminate) eq_refl)
    as [_ H].
  exact H.
Defined.

Lemma read_by_type_response_bounded_witness :
  exists pair_len d,
    with_events multi_world
      [EvMalloc 10; EvSendReadByTypeRsp 7 GATT_REQ_READ_BY_TYPE 5 5 [1; 0; 1; 2; 3] ReleaseFree]
    = with_events multi_world
        [EvMalloc 10; EvSendReadByTypeRsp 7 GATT_REQ_READ_BY_TYPE pair_len (length d) d
                        ReleaseFree] /\
    0 < length d <= 10.
Proof.
  apply (read_by_type_response_bounded (fun _ => true) (fun s _ _ => if s <=? 1 then 1 else 0)
           put_read_by_type_rsp_model 7 GATT_REQ_READ_BY_TYPE 1 5 0x2A19 10 0 multi_world
           WICED_BT_GATT_SUCCESS 2).
  - exact put_read_by_type_rsp_model_bounded.
  - vm_compute. reflexivity.
  - reflexivity.
Defined.

Lemma read_multi_empty_response_not_freed_witness :
  ble_gatt_request_read_multi_handler (fun _ => true) put_read_multi_rsp_model 7
    GATT_REQ_READ_MULTI [1] 2 multi_world
  = Ret (WICED_BT_GATT_INVALID_HANDLE, 1) (with_events multi_world [EvMalloc 2]).
Proof.
  apply (read_multi_empty_response_not_freed (fun _ => true) put_read_multi_rsp_model 7
           GATT_REQ_READ_MULTI [1] 2 multi_world); [reflexivity |].
  right. exists 1, [], (mk_entry 1 3 3 (Some [1; 2; 3])).
  split; [reflexivity | split; reflexivity].
Defined.

Lemma read_multi_response_bounded_witness :
  exists d,
    with_events multi_world
      [EvMalloc 10; EvSendReadMultipleRsp 7 GATT_REQ_READ_MULTI 3 [1; 2; 3] ReleaseFree]
    = with_events multi_world
        [EvMalloc 10; EvSendReadMultipleRsp 7 GATT_REQ_READ_MULTI (length d) d ReleaseFree] /\
    0 < length d <= 10.
Proof.
  apply (read_multi_response_bounded (fun _ => true) put_read_multi_rsp_model 7
           GATT_REQ_READ_MULTI [1] 10 multi_world WICED_BT_GATT_SUCCESS 1).
  - exact put_read_multi_rsp_model_bounded.
  - vm_compute. reflexivity.
  - reflexivity.
Defined.

Lemma command_write_non_ota_handle_witness :
  ble_gatt_command_write_handler (CY_RSLT_SUCCESS, 1) (fun _ _ _ => CY_RSLT_SUCCESS)
    (fun _ _ _ => CY_RSLT_SUCCESS) (fun _ _ => CY_RSLT_SUCCESS)
    (fun _ _ => CY_RSLT_SUCCESS) 1%N 20 21 23 3 (Some [1; 2]) 2 sample_world
  = Ret (fst (ble_gatt_db_set_value sample_table 3 (Some [1; 2]) 2), 3)
      (mk_world (snd (ble_gatt_db_set_value sample_table 3 (Some [1; 2]) 2))
         (w_ctx sample_world) []).
Proof.
  apply (command_write_non_ota_handle (CY_RSLT_SUCCESS, 1) (fun _ _ _ => CY_RSLT_SUCCESS)
           (fun _ _ _ => CY_RSLT_SUCCESS) (fun _ _ => CY_RSLT_SUCCESS)
           (fun _ _ => CY_RSLT_SUCCESS) 1%N 20 21 23 3 (Some [1; 2]) 2 sample_world);
    discriminate.
Defined.

Lemma ota_write_keeps_attribute_table_witness :
  w_tbl (mk_world sample_table
           (set_ota_config_descriptor (w_ctx sample_world) 1) []) = w_tbl sample_world.
Proof.
  apply (ota_write_keeps_attribute_table (CY_RSLT_SUCCESS, 1) (fun _ _ _ => CY_RSLT_SUCCESS)
           (fun _ _ _ => CY_RSLT_SUCCESS) (fun _ _ => CY_RSLT_SUCCESS)
           (fun _ _ => CY_RSLT_SUCCESS) 1%N 20 21 23 20 (Some [1; 0]) 2 sample_world);
    [left; reflexivity | reflexivity].
Defined.

Lemma write_opcodes_acknowledgement_witness :
  ble_gatt_event_callback (fun _ => true)
    (fun _ _ _ _ => WICED_BT_GATT_SUCCESS) (fun _ _ _ => 0)
    (fun _ _ _ _ _ => ([], 0)) put_read_multi_rsp_model
    (fun _ _ _ => WICED_BT_GATT_SUCCESS) 247 WICED_BT_SUCCESS
    (CY_RSLT_SUCCESS, 1) (fun _ _ _ => CY_RSLT_SUCCESS)
    (fun _ _ _ => CY_RSLT_SUCCESS) (fun _ _ => CY_RSLT_SUCCESS)
    (fun _ _ => CY_RSLT_SUCCESS) (fun _ => 0%N) 5%N 1%N 20 21 23
    (GATT_ATTRIBUTE_REQUEST_EVT
       (mk_request 7 GATT_REQ_WRITE 23 (WriteReq 3 (Some [1; 2]) 2)))
    sample_world
  = Ret WICED_BT_GATT_SUCCESS
      (mk_world (snd (ble_gatt_db_set_value sample_table 3 (Some [1; 2]) 2))
         (w_ctx sample_world) ([] ++ [EvSendWriteRsp 7 GATT_REQ_WRITE 3])).
Proof.
  exact (write_opcodes_acknowledgement (fun _ => true)
           (fun _ _ _ _ => WICED_BT_GATT_SUCCESS) (fun _ _ _ => 0)
           (fun _ _ _ _ _ => ([], 0)) put_read_multi_rsp_model
           (fun _ _ _ => WICED_BT_GATT_SUCCESS) 247 WICED_BT_SUCCESS
           (CY_RSLT_SUCCESS, 1) (fun _ _ _ => CY_RSLT_SUCCESS)
           (fun _ _ _ => CY_RSLT_SUCCESS) (fun _ _ => CY_RSLT_SUCCESS)
           (fun _ _ => CY_RSLT_SUCCESS) (fun _ => 0%N) 5%N 1%N 20 21 23 7 23
           GATT_REQ_WRITE 3 (Some [1; 2]) 2 sample_world
           (or_introl eq_refl) ltac:(discriminate) ltac:(discriminate)
           ltac:(discriminate)).
Defined.

Lemma connection_event_null_and_connect_witness :
  ble_context_connected
    (set_connection_state
       (set_peer_address (set_connection_id (w_ctx sample_world) 7)
          (firstn 6 [1; 2; 3; 4; 5; 6]))
       connected) = true.
Proof.
  exact (proj2 (proj2 (connection_event_null_and_connect WICED_BT_SUCCESS
                         (mk_connection_status true 7 [1; 2; 3; 4; 5; 6]) sample_world)
                  eq_refl)).
Defined.

Lemma connect_then_disconnect_witness :
  exists ctx'', m_connection_id ctx'' = 0 /\ ble_context_connected ctx'' = false /\
    m_peer_address ctx'' = [1; 2; 3; 4; 5; 6].
Proof.
  destruct (connect_then_disconnect WICED_BT_SUCCESS
              (mk_connection_status true 7 [1; 2; 3; 4; 5; 6])
              (mk_connection_status false 7 [1; 2; 3; 4; 5; 6]) sample_world
              eq_refl eq_refl eq_refl) as (c & _ & H1 & _ & H2 & H3 & _).
  exists c. split; [exact H1 | split; [exact H2 | exact H3]].
Defined.

Lemma management_events_without_effect_witness :
  stack_management_callback 1%N 0%N 0%N 3%N 0%N 1%N 4%N 1%N 2%N
    BTM_PAIRED_DEVICE_LINK_KEYS_REQUEST_EVT sample_world = Ret 1%N sample_world /\
  stack_management_callback 1%N 0%N 0%N 3%N 0%N 1%N 4%N 1%N 2%N
    BTM_PAIRING_COMPLETE_EVT sample_world = Ret WICED_BT_SUCCESS sample_world.
Proof.
  pose proof (management_events_without_effect 1%N 0%N 0%N 3%N 0%N 1%N 4%N 1%N 2%N
                BTM_PAIRED_DEVICE_LINK_KEYS_REQUEST_EVT sample_world []) as (_ & _ & _ & H & _).
  pose proof (management_events_without_effect 1%N 0%N 0%N 3%N 0%N 1%N 4%N 1%N 2%N
                BTM_PAIRING_COMPLETE_EVT sample_world []) as (_ & _ & _ & _ & H').
  split; [apply H; simpl; auto | apply H'; simpl; auto].
Defined.

Lemma management_enabled_event_witness :
  stack_management_callback 1%N WICED_BT_SUCCESS WICED_BT_SUCCESS 3%N 0%N 1%N 4%N 1%N 2%N
    (BTM_ENABLED_EVT WICED_BT_SUCCESS) sample_world
  = Ret WICED_BT_SUCCESS (with_events sample_world [EvStartAdvertisements]).
Proof.
  exact (proj1 (proj2 (management_enabled_event 1%N WICED_BT_SUCCESS WICED_BT_SUCCESS
                         3%N 0%N 1%N 4%N 1%N 2%N WICED_BT_SUCCESS sample_world))
           eq_refl eq_refl eq_refl).
Defined.

Lemma stack_initialize_resets_context_witness :
  stack_initialize WICED_BT_SUCCESS sample_world
  = Ret WICED_BT_SUCCESS
      (mk_world sample_table (default_value_initialize (w_ctx sample_world)) []).
Proof.
  exact (proj1 (stack_initialize_resets_context WICED_BT_SUCCESS sample_world) eq_refl).
Defined.

Lemma ota_abort_and_unknown_command_witness :
  ota_agent_write_handler (CY_RSLT_SUCCESS, 1) (fun _ _ _ => CY_RSLT_SUCCESS)
    (fun _ _ _ => CY_RSLT_SUCCESS) (fun _ _ => CY_RSLT_SUCCESS)
    (fun _ _ => CY_RSLT_SUCCESS) 1%N 20 21 23 21 (Some [CY_OTA_UPGRADE_COMMAND_ABORT])
    sample_world
  = Ret (WICED_BT_GATT_SUCCESS, 21) (with_events sample_world [EvOtaDownloadAbort]).
Proof.
  exact (proj1 (ota_abort_and_unknown_command (CY_RSLT_SUCCESS, 1)
                  (fun _ _ _ => CY_RSLT_SUCCESS) (fun _ _ _ => CY_RSLT_SUCCESS)
                  (fun _ _ => CY_RSLT_SUCCESS) (fun _ _ => CY_RSLT_SUCCESS) 1%N 20 21 23
                  9 3 [] None sample_world ltac:(discriminate))).
Defined.

Lemma ota_prepare_valid_tag_witness :
  ota_agent_write_handler (CY_RSLT_SUCCESS, 1) (fun _ _ _ => CY_RSLT_SUCCESS)
    (fun _ _ _ => CY_RSLT_SUCCESS) (fun _ _ => CY_RSLT_SUCCESS)
    (fun _ _ => CY_RSLT_SUCCESS) 1%N 20 21 23 21
    (Some [CY_OTA_UPGRADE_COMMAND_PREPARE_DOWNLOAD]) sample_world
  = Ret (WICED_BT_GATT_SUCCESS, 21)
      (mk_world sample_table (set_ota_context (ota_value_initialize (w_ctx sample_world)) 1)
         ([] ++ [EvOtaAgentStart; EvOtaDownloadPrepare])).
Proof.
  pose proof (ota_prepare_valid_tag (CY_RSLT_SUCCESS, 1) (fun _ _ _ => CY_RSLT_SUCCESS)
                (fun _ _ _ => CY_RSLT_SUCCESS) (fun _ _ => CY_RSLT_SUCCESS)
                (fun _ _ => CY_RSLT_SUCCESS) 1%N 20 21 23 [] sample_world
                ltac:(discriminate) eq_refl) as (_ & _ & _ & H).
  exact (H eq_refl).
Defined.

Lemma ota_prepare_then_confirmation_witness :
  exists w1,
    ota_agent_write_handler (CY_RSLT_SUCCESS, 1) (fun _ _ _ => CY_RSLT_SUCCESS)
      (fun _ _ _ => CY_RSLT_SUCCESS) (fun _ _ => CY_RSLT_SUCCESS)
      (fun _ _ => CY_RSLT_SUCCESS) 1%N 20 21 23 21
      (Some [CY_OTA_UPGRADE_COMMAND_PREPARE_DOWNLOAD]) sample_world
    = Ret (WICED_BT_GATT_SUCCESS, 21) w1 /\
    ota_agent_confirmation_handler (fun _ => 5%N) 5%N w1
    = Halt (with_events w1 [EvOtaGetState; EvDelayMs 1000; EvSystemReset]).
Proof.
  destruct (ota_prepare_then_confirmation (CY_RSLT_SUCCESS, 1)
              (fun _ _ _ => CY_RSLT_SUCCESS) (fun _ _ _ => CY_RSLT_SUCCESS)
              (fun _ _ => CY_RSLT_SUCCESS) (fun _ _ => CY_RSLT_SUCCESS) (fun _ => 5%N)
              5%N 1%N 20 21 23 [] sample_world ltac:(discriminate) eq_refl eq_refl eq_refl)
    as (w1 & H1 & H2).
  exists w1. split; [exact H1 | rewrite H2; reflexivity].
Defined.

Lemma ota_transfer_commands_status_witness :
  ota_agent_write_handler (CY_RSLT_SUCCESS, 1) (fun _ _ _ => CY_RSLT_SUCCESS)
    (fun _ _ _ => CY_RSLT_SUCCESS) (fun _ _ => CY_RSLT_SUCCESS)
    (fun _ _ => 1%N) 1%N 20 21 23 23 (Some [1; 2]) sample_world
  = Ret (WICED_BT_GATT_ERROR, 23) (with_events sample_world [EvOtaDownloadWrite]).
Proof.
  exact (proj2 (proj2 (ota_transfer_commands_status (CY_RSLT_SUCCESS, 1)
                         (fun _ _ _ => CY_RSLT_SUCCESS) (fun _ _ _ => CY_RSLT_SUCCESS)
                         (fun _ _ => CY_RSLT_SUCCESS) (fun _ _ => 1%N) 1%N 20 21 23 []
                         (Some [1; 2]) sample_world ltac:(discriminate)
                         ltac:(discriminate) ltac:(discriminate)))).
Defined.

Lemma battery_even_levels_cycle_witness :
  battery_levels_after 51 100 = 100%Z.
Proof.
  exact (proj1 (battery_even_levels_cycle 100 ltac:(lia) eq_refl)).
Defined.

Lemma battery_odd_levels_never_reset_witness :
  battery_levels_after 60 99 <> 100%Z /\ Z.odd (battery_levels_after 60 99) = true.
Proof.
  destruct (battery_odd_levels_never_reset 99 ltac:(lia) eq_refl 60) as (_ & H1 & H2).
  split; assumption.
Defined.
